(** * PeriodDay: the period-marking style derivation of the calendar day cell

    A shallow embedding of the style computations of the [PeriodDay]
    component (the richer variant, with multi-section support):
    [shouldDisableTouchEvent], [markingStyle], [containerStyle],
    [textStyle], the border helpers and [threeSectionFillerStyles].

    The memoised closures of the component are pure functions of the props,
    so each one becomes a function of the props it reads.  The helpers that
    mutate a style object passed to them ([applyBorderToSection] and the
    handlers built on it) return the updated object instead.

    Further down: [renderFillers], and the older, simpler variant of the
    component ([Legacy]), with what the two variants share and where they
    part. *)

From Stdlib Require Import Bool String List PrimFloat.
Import ListNotations.

Set Warnings "-inexact-float".
Local Open Scope string_scope.
Local Open Scope list_scope.
Local Open Scope bool_scope.

(** ** JavaScript values and truthiness *)

(** A JS number is an IEEE 754 double; a colour is a string.  An optional
    property is an [option]: [None] stands for a property that is absent or
    [undefined]. *)
Definition number := float.
Definition ColorValue := string.

Module JS.

(** [!!b] for an optional boolean. *)
Definition truthyBool (b : option bool) : bool :=
  match b with
  | Some true => true
  | _ => false
  end.

(** [!!s] for an optional string: the empty string is falsy. *)
Definition truthyStr (s : option string) : bool :=
  match s with
  | Some EmptyString => false
  | Some _ => true
  | None => false
  end.

(** [!!x] for a number: [0], [-0] and [NaN] are falsy. *)
Definition truthyNumber (x : number) : bool :=
  negb (PrimFloat.eqb x 0%float) && negb (PrimFloat.is_nan x).

Definition truthyNum (x : option number) : bool :=
  match x with
  | Some v => truthyNumber v
  | None => false
  end.

(** [!!o] for an optional object: every object is truthy. *)
Definition truthyObj {A : Type} (o : option A) : bool :=
  match o with
  | Some _ => true
  | None => false
  end.

(** [a || b] on optional strings. *)
Definition orStr (a b : option string) : option string :=
  if truthyStr a then a else b.

(** [a || d] where [d] is a number literal. *)
Definition orNum (a : option number) (d : number) : number :=
  match a with
  | Some v => if truthyNumber v then v else d
  | None => d
  end.

(** A number that compares equal to zero ([0] or [-0]). *)
Definition isZero (x : number) : bool := PrimFloat.eqb x 0%float.

End JS.

(** ** Style objects *)

(** The properties of a [ViewStyle] that the component reads or writes. *)
Record ViewStyle : Type := mkViewStyle {
  backgroundColor : option ColorValue;
  borderColor : option ColorValue;
  borderWidth : option number;
  borderRadius : option number;
  borderTopWidth : option number;
  borderBottomWidth : option number;
  borderLeftWidth : option number;
  borderRightWidth : option number;
  borderTopLeftRadius : option number;
  borderBottomLeftRadius : option number;
  borderTopRightRadius : option number;
  borderBottomRightRadius : option number;
  overflow : option string;
  paddingTop : option number
}.

(** The empty object [{}]. *)
Definition emptyView : ViewStyle :=
  mkViewStyle None None None None None None None None None None None None
              None None.

(** Property assignments [section.p = v]. *)
Definition set_backgroundColor (v : option ColorValue) (s : ViewStyle) : ViewStyle :=
  mkViewStyle v (borderColor s) (borderWidth s) (borderRadius s)
    (borderTopWidth s) (borderBottomWidth s) (borderLeftWidth s)
    (borderRightWidth s) (borderTopLeftRadius s) (borderBottomLeftRadius s)
    (borderTopRightRadius s) (borderBottomRightRadius s) (overflow s)
    (paddingTop s).

Definition set_borderColor (v : option ColorValue) (s : ViewStyle) : ViewStyle :=
  mkViewStyle (backgroundColor s) v (borderWidth s) (borderRadius s)
    (borderTopWidth s) (borderBottomWidth s) (borderLeftWidth s)
    (borderRightWidth s) (borderTopLeftRadius s) (borderBottomLeftRadius s)
    (borderTopRightRadius s) (borderBottomRightRadius s) (overflow s)
    (paddingTop s).

Definition set_borderTopWidth (v : number) (s : ViewStyle) : ViewStyle :=
  mkViewStyle (backgroundColor s) (borderColor s) (borderWidth s)
    (borderRadius s) (Some v) (borderBottomWidth s) (borderLeftWidth s)
    (borderRightWidth s) (borderTopLeftRadius s) (borderBottomLeftRadius s)
    (borderTopRightRadius s) (borderBottomRightRadius s) (overflow s)
    (paddingTop s).

Definition set_borderBottomWidth (v : number) (s : ViewStyle) : ViewStyle :=
  mkViewStyle (backgroundColor s) (borderColor s) (borderWidth s)
    (borderRadius s) (borderTopWidth s) (Some v) (borderLeftWidth s)
    (borderRightWidth s) (borderTopLeftRadius s) (borderBottomLeftRadius s)
    (borderTopRightRadius s) (borderBottomRightRadius s) (overflow s)
    (paddingTop s).

Definition set_borderLeftWidth (v : number) (s : ViewStyle) : ViewStyle :=
  mkViewStyle (backgroundColor s) (borderColor s) (borderWidth s)
    (borderRadius s) (borderTopWidth s) (borderBottomWidth s) (Some v)
    (borderRightWidth s) (borderTopLeftRadius s) (borderBottomLeftRadius s)
    (borderTopRightRadius s) (borderBottomRightRadius s) (overflow s)
    (paddingTop s).

Definition set_borderRightWidth (v : number) (s : ViewStyle) : ViewStyle :=
  mkViewStyle (backgroundColor s) (borderColor s) (borderWidth s)
    (borderRadius s) (borderTopWidth s) (borderBottomWidth s)
    (borderLeftWidth s) (Some v) (borderTopLeftRadius s)
    (borderBottomLeftRadius s) (borderTopRightRadius s)
    (borderBottomRightRadius s) (overflow s) (paddingTop s).

Definition set_borderTopLeftRadius (v : number) (s : ViewStyle) : ViewStyle :=
  mkViewStyle (backgroundColor s) (borderColor s) (borderWidth s)
    (borderRadius s) (borderTopWidth s) (borderBottomWidth s)
    (borderLeftWidth s) (borderRightWidth s) (Some v)
    (borderBottomLeftRadius s) (borderTopRightRadius s)
    (borderBottomRightRadius s) (overflow s) (paddingTop s).

Definition set_borderBottomLeftRadius (v : number) (s : ViewStyle) : ViewStyle :=
  mkViewStyle (backgroundColor s) (borderColor s) (borderWidth s)
    (borderRadius s) (borderTopWidth s) (borderBottomWidth s)
    (borderLeftWidth s) (borderRightWidth s) (borderTopLeftRadius s)
    (Some v) (borderTopRightRadius s) (borderBottomRightRadius s)
    (overflow s) (paddingTop s).

Definition set_borderTopRightRadius (v : number) (s : ViewStyle) : ViewStyle :=
  mkViewStyle (backgroundColor s) (borderColor s) (borderWidth s)
    (borderRadius s) (borderTopWidth s) (borderBottomWidth s)
    (borderLeftWidth s) (borderRightWidth s) (borderTopLeftRadius s)
    (borderBottomLeftRadius s) (Some v) (borderBottomRightRadius s)
    (overflow s) (paddingTop s).

Definition set_borderBottomRightRadius (v : number) (s : ViewStyle) : ViewStyle :=
  mkViewStyle (backgroundColor s) (borderColor s) (borderWidth s)
    (borderRadius s) (borderTopWidth s) (borderBottomWidth s)
    (borderLeftWidth s) (borderRightWidth s) (borderTopLeftRadius s)
    (borderBottomLeftRadius s) (borderTopRightRadius s) (Some v)
    (overflow s) (paddingTop s).

(** The object literal [{backgroundColor: c}]. *)
Definition backgroundOnly (c : option ColorValue) : ViewStyle :=
  set_backgroundColor c emptyView.

(** The properties of a [TextStyle] that matter here: the component itself
    only ever writes [color]; the others come from the theme or from the
    caller's [customTextStyle]. *)
Module Text.
Record TextStyle : Type := mkTextStyle {
  color : option ColorValue;
  fontSize : option number;
  fontWeight : option string
}.

(** [{}] and [{color: c}]. *)
Definition empty : TextStyle := mkTextStyle None None None.
Definition colorOnly (c : option ColorValue) : TextStyle :=
  mkTextStyle c None None.
End Text.

(** ** Props *)

(** [DayState]; the last constructor is the empty string. *)
Inductive DayState : Type :=
| StateSelected
| StateDisabled
| StateInactive
| StateToday
| StateNone.

Definition DayState_eqb (a b : DayState) : bool :=
  match a, b with
  | StateSelected, StateSelected
  | StateDisabled, StateDisabled
  | StateInactive, StateInactive
  | StateToday, StateToday
  | StateNone, StateNone => true
  | _, _ => false
  end.

(** [state === 'disabled'] and the like, for the optional [state] prop. *)
Definition stateIs (state : option DayState) (s : DayState) : bool :=
  match state with
  | Some x => DayState_eqb x s
  | None => false
  end.

(** The fields of [MarkingProps] read by the style derivation.  The type is
    declared in the marking module; the fields and their types are those the
    component uses.  A style prop ([customTextStyle],
    [customContainerStyle]) is a plain style object when present. *)
Module Marking.
Record MarkingProps : Type := mkMarkingProps {
  disabled : option bool;
  inactive : option bool;
  today : option bool;
  selected : option bool;
  disableTouchEvent : option bool;
  startingDay : option bool;
  endingDay : option bool;
  color : option ColorValue;
  borderColor : option ColorValue;
  borderWith : option number;
  borderRadius : option number;
  textColor : option ColorValue;
  customTextStyle : option Text.TextStyle;
  customContainerStyle : option ViewStyle;
  isMultiPeriod : option bool;
  leftSectionColor : option ColorValue;
  leftSectionBorderColor : option ColorValue;
  middleSectionColor : option ColorValue;
  middleSectionBorderColor : option ColorValue;
  rightSectionColor : option ColorValue;
  rightSectionBorderColor : option ColorValue;
  leftSectionIsSingleDay : option bool;
  rightSectionIsSingleDay : option bool
}.

(** The marking [{}]. *)
Definition empty : MarkingProps :=
  mkMarkingProps None None None None None None None None None None None
                 None None None None None None None None None None None
                 None.
End Marking.

(** The style sheet built from the theme ([style.current]); its constructor
    is not part of the component, so the sheet is an input. *)
Module Sheet.
Record StyleSheet : Type := mkStyleSheet {
  base : ViewStyle;
  today : ViewStyle;
  text : Text.TextStyle;
  disabledText : Text.TextStyle;
  inactiveText : Text.TextStyle;
  selectedText : Text.TextStyle;
  todayText : Text.TextStyle
}.
End Sheet.

(** The component's [MarkingStyle]: both style props may be falsy by type,
    the three period styles are optional. *)
Module MarkingStyle.
Record MarkingStyle : Type := mkMarkingStyle {
  containerStyle : option ViewStyle;
  textStyle : option Text.TextStyle;
  startingDay : option ViewStyle;
  endingDay : option ViewStyle;
  day : option ViewStyle
}.
End MarkingStyle.

(** The [borders] argument of [applyBorderToSection]; a flag left out of the
    object literal is [false]. *)
Record Borders : Type := mkBorders {
  top : bool;
  bottom : bool;
  left : bool;
  right : bool;
  topLeft : bool;
  bottomLeft : bool;
  topRight : bool;
  bottomRight : bool
}.

(** [{top, bottom, right, topRight, bottomRight}]: only the right edge closed. *)
Definition rightClosed : Borders :=
  mkBorders true true false true false false true true.

(** [{top, bottom, left, topLeft, bottomLeft}]: only the left edge closed. *)
Definition leftClosed : Borders :=
  mkBorders true true true false true true false false.

(** [{top, bottom}]: both side edges open. *)
Definition topBottom : Borders :=
  mkBorders true true false false false false false false.

(** All eight flags set. *)
Definition allClosed : Borders :=
  mkBorders true true true true true true true true.

Record ThreeSectionFillerStyles : Type := mkThreeSectionFillerStyles {
  leftFillerStyle : ViewStyle;
  middleFillerStyle : ViewStyle;
  rightFillerStyle : ViewStyle;
  fillerStyle : ViewStyle
}.

(** ** Border helpers *)

(** [applyBorderToSection]: writes, in this order, the two colours when
    truthy, the four widths and the four radii selected by [borders]. *)
Definition applyBorderToSection (section : ViewStyle)
    (bg bc : option ColorValue) (bw br : number) (borders : Borders)
    : ViewStyle :=
  let s := if JS.truthyStr bg then set_backgroundColor bg section else section in
  let s := if JS.truthyStr bc then set_borderColor bc s else s in
  let s := if top borders then set_borderTopWidth bw s else s in
  let s := if bottom borders then set_borderBottomWidth bw s else s in
  let s := if left borders then set_borderLeftWidth bw s else s in
  let s := if right borders then set_borderRightWidth bw s else s in
  let s := if topLeft borders then set_borderTopLeftRadius br s else s in
  let s := if bottomLeft borders then set_borderBottomLeftRadius br s else s in
  let s := if topRight borders then set_borderTopRightRadius br s else s in
  if bottomRight borders then set_borderBottomRightRadius br s else s.

Definition applyFullyClosedBorder (section : ViewStyle)
    (bg bc : option ColorValue) (bw br : number) : ViewStyle :=
  applyBorderToSection section bg bc bw br allClosed.

(** [handleTwoSectionMultiPeriod]: the updated left and right fillers. *)
Definition handleTwoSectionMultiPeriod (leftFiller rightFiller : ViewStyle)
    (marking : Marking.MarkingProps) (bw br : number)
    : ViewStyle * ViewStyle :=
  let l :=
    if JS.truthyBool (Marking.leftSectionIsSingleDay marking)
    then applyFullyClosedBorder leftFiller (Marking.leftSectionColor marking)
           (Marking.leftSectionBorderColor marking) bw br
    else applyBorderToSection leftFiller (Marking.leftSectionColor marking)
           (Marking.leftSectionBorderColor marking) bw br rightClosed in
  let r :=
    if JS.truthyBool (Marking.rightSectionIsSingleDay marking)
    then applyFullyClosedBorder rightFiller (Marking.rightSectionColor marking)
           (Marking.rightSectionBorderColor marking) bw br
    else applyBorderToSection rightFiller (Marking.rightSectionColor marking)
           (Marking.rightSectionBorderColor marking) bw br leftClosed in
  (l, r).

(** [handleThreeSectionMultiPeriod]: the updated left, middle and right
    fillers. *)
Definition handleThreeSectionMultiPeriod
    (leftFiller middleFiller rightFiller : ViewStyle)
    (marking : Marking.MarkingProps) (bw br : number)
    : ViewStyle * ViewStyle * ViewStyle :=
  let l := applyBorderToSection leftFiller (Marking.leftSectionColor marking)
             (Marking.leftSectionBorderColor marking) bw br rightClosed in
  let m := applyFullyClosedBorder middleFiller
             (Marking.middleSectionColor marking)
             (Marking.middleSectionBorderColor marking) bw br in
  let r := applyBorderToSection rightFiller (Marking.rightSectionColor marking)
             (Marking.rightSectionBorderColor marking) bw br leftClosed in
  (l, m, r).

(** [handleFallbackMultiPeriod]: the updated left, middle and right
    fillers. *)
Definition handleFallbackMultiPeriod
    (leftFiller middleFiller rightFiller : ViewStyle)
    (marking : Marking.MarkingProps) (bw br : number)
    (hasLeft hasMiddle hasRight : bool)
    : ViewStyle * ViewStyle * ViewStyle :=
  let l :=
    if hasLeft then
      if negb hasMiddle && negb hasRight
      then applyFullyClosedBorder leftFiller (Marking.leftSectionColor marking)
             (Marking.leftSectionBorderColor marking) bw br
      else applyBorderToSection leftFiller (Marking.leftSectionColor marking)
             (Marking.leftSectionBorderColor marking) bw br rightClosed
    else leftFiller in
  let m :=
    if hasMiddle
    then applyFullyClosedBorder middleFiller
           (Marking.middleSectionColor marking)
           (Marking.middleSectionBorderColor marking) bw br
    else middleFiller in
  let r :=
    if hasRight then
      if negb hasMiddle && negb hasLeft
      then applyFullyClosedBorder rightFiller
             (Marking.rightSectionColor marking)
             (Marking.rightSectionBorderColor marking) bw br
      else applyBorderToSection rightFiller (Marking.rightSectionColor marking)
             (Marking.rightSectionBorderColor marking) bw br leftClosed
    else rightFiller in
  (l, m, r).

(** The object returned for a single-day period. *)
Definition singleDayFiller (start end_ : ViewStyle) (bw br : number) : ViewStyle :=
  mkViewStyle
    (JS.orStr (backgroundColor start) (backgroundColor end_))
    (JS.orStr (borderColor start) (borderColor end_))
    None None
    (Some bw) (Some bw) (Some bw) (Some bw)
    (Some br) (Some br) (Some br) (Some br)
    None None.

(** The object returned for a day inside a period. *)
Definition middleDayFiller (day : ViewStyle) (bw : number) : ViewStyle :=
  mkViewStyle (backgroundColor day) (borderColor day) None None
    (Some bw) (Some bw) None None None None None None None None.

(** [handleSinglePeriod]: the updated left and right fillers and the
    returned filler style. *)
Definition handleSinglePeriod (leftFiller rightFiller filler : ViewStyle)
    (markingStyle : MarkingStyle.MarkingStyle) (bw br : number)
    : ViewStyle * ViewStyle * ViewStyle :=
  match MarkingStyle.startingDay markingStyle,
        MarkingStyle.endingDay markingStyle with
  | Some start, None =>
      (applyBorderToSection leftFiller (backgroundColor start)
         (borderColor start) bw br leftClosed,
       applyBorderToSection rightFiller (backgroundColor start)
         (borderColor start) bw br topBottom,
       filler)
  | None, Some end_ =>
      (applyBorderToSection leftFiller (backgroundColor end_)
         (borderColor end_) bw br topBottom,
       applyBorderToSection rightFiller (backgroundColor end_)
         (borderColor end_) bw br rightClosed,
       filler)
  | Some start, Some end_ =>
      (leftFiller, rightFiller, singleDayFiller start end_ bw br)
  | None, None =>
      match MarkingStyle.day markingStyle with
      | Some day => (leftFiller, rightFiller, middleDayFiller day bw)
      | None => (leftFiller, rightFiller, filler)
      end
  end.

(** ** The component *)

(** Optional chaining [marking?.f]. *)
Definition optField {A : Type} (f : Marking.MarkingProps -> option A)
    (marking : option Marking.MarkingProps) : option A :=
  match marking with
  | Some m => f m
  | None => None
  end.

(** The local constants [borderWidth] and [borderRadius] of
    [threeSectionFillerStyles]. *)
Definition fillerBorderWidth (m : Marking.MarkingProps) : number :=
  JS.orNum (Marking.borderWith m) 0.7%float.

Definition fillerBorderRadius (m : Marking.MarkingProps) : number :=
  JS.orNum (Marking.borderRadius m) 9%float.

(** The object literals of [markingStyle]: the one used for a starting and
    for an ending day, and the one used for a day inside a period. *)
Definition periodEdgeStyle (m : Marking.MarkingProps) : ViewStyle :=
  mkViewStyle (Marking.color m)
    (JS.orStr (Marking.borderColor m) (Marking.color m))
    (Some (JS.orNum (Marking.borderWith m) 0.7%float))
    (Some (JS.orNum (Marking.borderRadius m) 9%float))
    None None None None None None None None None None.

Definition periodDayStyle (m : Marking.MarkingProps) : ViewStyle :=
  mkViewStyle (Marking.color m)
    (JS.orStr (Marking.borderColor m) (Marking.color m))
    (Some (JS.orNum (Marking.borderWith m) 0.7%float))
    None
    None None None None None None None None None None.

(** [baseContainerStyle] of [containerStyle]. *)
Definition baseContainerStyle (m : Marking.MarkingProps) : ViewStyle :=
  mkViewStyle None None None
    (Some (JS.orNum (Marking.borderRadius m) 17%float))
    None None None None None None None None
    (Some "hidden") (Some 5%float).

(** The initial filler [{backgroundColor: 'transparent'}]. *)
Definition transparentFiller : ViewStyle := backgroundOnly (Some "transparent").

Section PeriodDay.

Variable style : Sheet.StyleSheet.
Variable marking : option Marking.MarkingProps.
Variable state : option DayState.
Variable disableAllTouchEventsForDisabledDays : option bool.
Variable disableAllTouchEventsForInactiveDays : option bool.

Definition isDisabled : bool :=
  match optField Marking.disabled marking with
  | Some b => b
  | None => stateIs state StateDisabled
  end.

Definition isInactive : bool :=
  match optField Marking.inactive marking with
  | Some b => b
  | None => stateIs state StateInactive
  end.

Definition isToday : bool :=
  match optField Marking.today marking with
  | Some b => b
  | None => stateIs state StateToday
  end.

Definition shouldDisableTouchEvent : bool :=
  match optField Marking.disableTouchEvent marking with
  | Some disableTouchEvent => disableTouchEvent
  | None =>
      match disableAllTouchEventsForDisabledDays, isDisabled with
      | Some flag, true => flag
      | _, _ =>
          match disableAllTouchEventsForInactiveDays, isInactive with
          | Some flag, true => flag
          | _, _ => false
          end
      end
  end.

Definition markingStyle : MarkingStyle.MarkingStyle :=
  match marking with
  | None =>
      MarkingStyle.mkMarkingStyle (Some emptyView) (Some Text.empty)
        None None None
  | Some m =>
      let textStyle :=
        if JS.truthyBool (Marking.disabled m)
        then Some (Text.colorOnly (Text.color (Sheet.disabledText style)))
        else if JS.truthyBool (Marking.inactive m)
        then Some (Text.colorOnly (Text.color (Sheet.inactiveText style)))
        else if JS.truthyBool (Marking.selected m)
        then Some (Text.colorOnly (Text.color (Sheet.selectedText style)))
        else Some Text.empty in
      let startingDay :=
        if JS.truthyBool (Marking.startingDay m)
        then Some (periodEdgeStyle m) else None in
      let endingDay :=
        if JS.truthyBool (Marking.endingDay m)
        then Some (periodEdgeStyle m) else None in
      let day :=
        if negb (JS.truthyBool (Marking.startingDay m))
           && negb (JS.truthyBool (Marking.endingDay m))
        then Some (periodDayStyle m) else None in
      let textStyle :=
        if JS.truthyStr (Marking.textColor m)
        then Some (Text.colorOnly (Marking.textColor m)) else textStyle in
      let textStyle :=
        if JS.truthyObj (Marking.customTextStyle m)
        then Marking.customTextStyle m else textStyle in
      let containerStyle :=
        if JS.truthyObj (Marking.customContainerStyle m)
        then Marking.customContainerStyle m else Some emptyView in
      MarkingStyle.mkMarkingStyle containerStyle textStyle
        startingDay endingDay day
  end.

(** The body of the [containerStyle] memo, as a function of the
    [markingStyle] value it reads: the style array, in push order. *)
Definition containerStyleOf (markingStyle : MarkingStyle.MarkingStyle)
    : list ViewStyle :=
  let cs := [Sheet.base style] in
  let cs := if isToday then cs ++ [Sheet.today style] else cs in
  match marking with
  | None => cs
  | Some m =>
      let cs := cs ++ [baseContainerStyle m] in
      let cs :=
        if JS.truthyBool (Marking.isMultiPeriod m)
        then cs ++ [backgroundOnly (Some "transparent")]
        else
          match MarkingStyle.startingDay markingStyle,
                MarkingStyle.endingDay markingStyle with
          | Some start, None => cs ++ [backgroundOnly (backgroundColor start)]
          | None, Some end_ => cs ++ [backgroundOnly (backgroundColor end_)]
          | Some _, Some end_ => cs ++ [backgroundOnly (backgroundColor end_)]
          | None, None => cs
          end in
      match MarkingStyle.containerStyle markingStyle with
      | Some c => cs ++ [c]
      | None => cs
      end
  end.

(** [containerStyle]: the memo, on the component's own [markingStyle]. *)
Definition containerStyle : list ViewStyle := containerStyleOf markingStyle.

(** [textStyle]: the style array, in push order. *)
Definition textStyle : list Text.TextStyle :=
  let ts := [Sheet.text style] in
  let ts :=
    if isDisabled then ts ++ [Sheet.disabledText style]
    else if isInactive then ts ++ [Sheet.inactiveText style]
    else if isToday then ts ++ [Sheet.todayText style]
    else ts in
  match marking with
  | None => ts
  | Some _ =>
      match MarkingStyle.textStyle markingStyle with
      | Some t => ts ++ [t]
      | None => ts
      end
  end.

Definition threeSectionFillerStyles : ThreeSectionFillerStyles :=
  match marking with
  | None =>
      mkThreeSectionFillerStyles transparentFiller transparentFiller
        transparentFiller emptyView
  | Some m =>
      let bw := fillerBorderWidth m in
      let br := fillerBorderRadius m in
      if JS.truthyBool (Marking.isMultiPeriod m) then
        let hasLeft := JS.truthyStr (Marking.leftSectionColor m) in
        let hasMiddle := JS.truthyStr (Marking.middleSectionColor m) in
        let hasRight := JS.truthyStr (Marking.rightSectionColor m) in
        if hasLeft && hasRight && negb hasMiddle then
          let '(l, r) :=
            handleTwoSectionMultiPeriod transparentFiller transparentFiller
              m bw br in
          mkThreeSectionFillerStyles l transparentFiller r emptyView
        else if hasLeft && hasMiddle && hasRight then
          let '(l, c, r) :=
            handleThreeSectionMultiPeriod transparentFiller transparentFiller
              transparentFiller m bw br in
          mkThreeSectionFillerStyles l c r emptyView
        else
          let '(l, c, r) :=
            handleFallbackMultiPeriod transparentFiller transparentFiller
              transparentFiller m bw br hasLeft hasMiddle hasRight in
          mkThreeSectionFillerStyles l c r emptyView
      else
        let '(l, r, f) :=
          handleSinglePeriod transparentFiller transparentFiller emptyView
            markingStyle bw br in
        mkThreeSectionFillerStyles l transparentFiller r f
  end.

End PeriodDay.

(** ** Reading the results *)

(** [a ?? b]: the right operand only when the left one is absent. *)
Definition nullish (a b : option ColorValue) : option ColorValue :=
  match a with
  | Some _ => a
  | None => b
  end.

(** The background colour a style array resolves to: entries pushed later
    take precedence over earlier ones, so the last entry that supplies a
    [backgroundColor] decides. *)
Definition resolvedBackground (styles : list ViewStyle) : option ColorValue :=
  fold_left
    (fun acc s =>
       match backgroundColor s with
       | Some c => Some c
       | None => acc
       end)
    styles None.

(** The [backgroundColor] of the caller's [customContainerStyle], if any. *)
Definition customBackground (m : Marking.MarkingProps) : option ColorValue :=
  match Marking.customContainerStyle m with
  | Some c => backgroundColor c
  | None => None
  end.

(** The section-colour presence flags of [threeSectionFillerStyles]. *)
Definition hasLeft (m : Marking.MarkingProps) : bool :=
  JS.truthyStr (Marking.leftSectionColor m).

Definition hasMiddle (m : Marking.MarkingProps) : bool :=
  JS.truthyStr (Marking.middleSectionColor m).

Definition hasRight (m : Marking.MarkingProps) : bool :=
  JS.truthyStr (Marking.rightSectionColor m).

(** Neither the two-section nor the three-section layout. *)
Definition isFallbackCombination (m : Marking.MarkingProps) : bool :=
  negb (hasLeft m && hasRight m && negb (hasMiddle m))
  && negb (hasLeft m && hasMiddle m && hasRight m).

(** Edges of a filler, for a border width [w] and a corner radius [r]. *)
Definition TopBottom (w : number) (s : ViewStyle) : Prop :=
  borderTopWidth s = Some w /\ borderBottomWidth s = Some w.

Definition ClosedLeft (w r : number) (s : ViewStyle) : Prop :=
  borderLeftWidth s = Some w
  /\ borderTopLeftRadius s = Some r
  /\ borderBottomLeftRadius s = Some r.

Definition ClosedRight (w r : number) (s : ViewStyle) : Prop :=
  borderRightWidth s = Some w
  /\ borderTopRightRadius s = Some r
  /\ borderBottomRightRadius s = Some r.

Definition OpenLeft (s : ViewStyle) : Prop :=
  borderLeftWidth s = None
  /\ borderTopLeftRadius s = None
  /\ borderBottomLeftRadius s = None.

Definition OpenRight (s : ViewStyle) : Prop :=
  borderRightWidth s = None
  /\ borderTopRightRadius s = None
  /\ borderBottomRightRadius s = None.

(** All four edges at width [w], all four corners at radius [r]. *)
Definition FullyClosed (w r : number) (s : ViewStyle) : Prop :=
  TopBottom w s /\ ClosedLeft w r s /\ ClosedRight w r s.

(** Only the right edge closed, and only the left edge closed. *)
Definition RightEdgeOnly (w r : number) (s : ViewStyle) : Prop :=
  TopBottom w s /\ ClosedRight w r s /\ OpenLeft s.

Definition LeftEdgeOnly (w r : number) (s : ViewStyle) : Prop :=
  TopBottom w s /\ ClosedLeft w r s /\ OpenRight s.

(** A fully enclosed shape: four equal non-zero widths and four equal
    corner radii. *)
Definition Enclosed (s : ViewStyle) : Prop :=
  exists w r, JS.isZero w = false /\ FullyClosed w r s.

(** No border width and no corner radius of the style is a zero. *)
Definition nonzeroField (f : option number) : bool :=
  match f with
  | Some v => negb (JS.isZero v)
  | None => true
  end.

Definition noZeroBorders (s : ViewStyle) : bool :=
  forallb nonzeroField
    [borderWidth s; borderRadius s;
     borderTopWidth s; borderBottomWidth s;
     borderLeftWidth s; borderRightWidth s;
     borderTopLeftRadius s; borderBottomLeftRadius s;
     borderTopRightRadius s; borderBottomRightRadius s].

Definition noZeroBordersOpt (s : option ViewStyle) : bool :=
  match s with
  | Some v => noZeroBorders v
  | None => true
  end.

(** The fallback rule in the words of the specification: a section is closed
    on every side where it has no sibling (nothing ever lies to the left of
    the left section, nor to the right of the right one), a lone section is
    closed all around, and a present middle section is closed all around. *)
Definition FallbackRuleAsSpecified (fs : ThreeSectionFillerStyles)
    (m : Marking.MarkingProps) : Prop :=
  let w := fillerBorderWidth m in
  let r := fillerBorderRadius m in
  (hasLeft m = true -> ClosedLeft w r (leftFillerStyle fs))
  /\ (hasLeft m = true -> hasMiddle m = false -> hasRight m = false ->
      ClosedRight w r (leftFillerStyle fs))
  /\ (hasRight m = true -> ClosedRight w r (rightFillerStyle fs))
  /\ (hasRight m = true -> hasMiddle m = false -> hasLeft m = false ->
      ClosedLeft w r (rightFillerStyle fs))
  /\ (hasLeft m = true -> hasMiddle m = false -> hasRight m = false ->
      FullyClosed w r (leftFillerStyle fs))
  /\ (hasRight m = true -> hasMiddle m = false -> hasLeft m = false ->
      FullyClosed w r (rightFillerStyle fs))
  /\ (hasMiddle m = true -> FullyClosed w r (middleFillerStyle fs)).

(** Updates of the two numeric fields of a marking. *)
Definition with_borderWith (v : option number) (m : Marking.MarkingProps)
    : Marking.MarkingProps :=
  Marking.mkMarkingProps (Marking.disabled m) (Marking.inactive m)
    (Marking.today m) (Marking.selected m) (Marking.disableTouchEvent m)
    (Marking.startingDay m) (Marking.endingDay m) (Marking.color m)
    (Marking.borderColor m) v (Marking.borderRadius m) (Marking.textColor m)
    (Marking.customTextStyle m) (Marking.customContainerStyle m)
    (Marking.isMultiPeriod m) (Marking.leftSectionColor m)
    (Marking.leftSectionBorderColor m) (Marking.middleSectionColor m)
    (Marking.middleSectionBorderColor m) (Marking.rightSectionColor m)
    (Marking.rightSectionBorderColor m) (Marking.leftSectionIsSingleDay m)
    (Marking.rightSectionIsSingleDay m).

Definition with_borderRadius (v : option number) (m : Marking.MarkingProps)
    : Marking.MarkingProps :=
  Marking.mkMarkingProps (Marking.disabled m) (Marking.inactive m)
    (Marking.today m) (Marking.selected m) (Marking.disableTouchEvent m)
    (Marking.startingDay m) (Marking.endingDay m) (Marking.color m)
    (Marking.borderColor m) (Marking.borderWith m) v (Marking.textColor m)
    (Marking.customTextStyle m) (Marking.customContainerStyle m)
    (Marking.isMultiPeriod m) (Marking.leftSectionColor m)
    (Marking.leftSectionBorderColor m) (Marking.middleSectionColor m)
    (Marking.middleSectionBorderColor m) (Marking.rightSectionColor m)
    (Marking.rightSectionBorderColor m) (Marking.leftSectionIsSingleDay m)
    (Marking.rightSectionIsSingleDay m).

(** ** Sample inputs *)

(** A style sheet with empty styles and three distinct text colours. *)
Definition plainSheet : Sheet.StyleSheet :=
  Sheet.mkStyleSheet emptyView emptyView Text.empty
    (Text.colorOnly (Some "#d9e1e8")) (Text.colorOnly (Some "#c0c0c0"))
    (Text.colorOnly (Some "#ffffff")) (Text.colorOnly (Some "#00adf5")).

(** [{startingDay: true, color: '#FF0000'}] *)
Definition startingDayMarking : Marking.MarkingProps :=
  Marking.mkMarkingProps None None None None None (Some true) None
    (Some "#FF0000") None None None None None None None None None None None
    None None None None.

(** [{startingDay: true, endingDay: true, color: '#FF0000'}] *)
Definition singleDayMarking : Marking.MarkingProps :=
  Marking.mkMarkingProps None None None None None (Some true) (Some true)
    (Some "#FF0000") None None None None None None None None None None None
    None None None None.

(** [{isMultiPeriod: true, leftSectionColor: '#AA0000',
      middleSectionColor: '#00AA00'}] *)
Definition leftMiddleMarking : Marking.MarkingProps :=
  Marking.mkMarkingProps None None None None None None None None None None
    None None None None (Some true) (Some "#AA0000") None (Some "#00AA00")
    None None None None None.

(** [{isMultiPeriod: true, leftSectionColor: '#AA0000',
      rightSectionColor: '#0000AA'}] *)
Definition leftRightMarking : Marking.MarkingProps :=
  Marking.mkMarkingProps None None None None None None None None None None
    None None None None (Some true) (Some "#AA0000") None None None
    (Some "#0000AA") None None None.

(** [{isMultiPeriod: true, leftSectionColor: '#AA0000',
      middleSectionColor: '#00AA00', rightSectionColor: '#0000AA',
      leftSectionIsSingleDay: true}] *)
Definition threeSectionMarking : Marking.MarkingProps :=
  Marking.mkMarkingProps None None None None None None None None None None
    None None None None (Some true) (Some "#AA0000") None (Some "#00AA00")
    None (Some "#0000AA") None (Some true) None.

(** [{isMultiPeriod: true, color: '#FF0000',
      customContainerStyle: {backgroundColor: 'red'}}] *)
Definition customContainerMarking : Marking.MarkingProps :=
  Marking.mkMarkingProps None None None None None None None (Some "#FF0000")
    None None None None None (Some (backgroundOnly (Some "red")))
    (Some true) None None None None None None None None.

(** [{isMultiPeriod: true, color: '#FF0000', startingDay: true}] *)
Definition multiPeriodMarking : Marking.MarkingProps :=
  Marking.mkMarkingProps None None None None None (Some true) None
    (Some "#FF0000") None None None None None None (Some true) None None
    None None None None None None.

(** [{disabled: true, disableTouchEvent: false}] *)
Definition touchableDisabledMarking : Marking.MarkingProps :=
  Marking.mkMarkingProps (Some true) None None None (Some false) None None
    None None None None None None None None None None None None None None
    None None.

(** ** Rendering of the fillers *)

(** The filler entries of the style sheet ([style.current.fillers],
    [leftFiller], [middleFiller], [rightFiller]); [middleFiller] may be
    missing, [renderFillers] then falls back on [leftFiller]. *)
Module FillerSheet.
Record FillerSheet : Type := mkFillerSheet {
  fillers : ViewStyle;
  leftFiller : ViewStyle;
  middleFiller : option ViewStyle;
  rightFiller : ViewStyle
}.
End FillerSheet.

(** The views returned by [renderFillers]: the style array of the wrapping
    view and the style arrays of its children, in order. *)
Record FillersView : Type := mkFillersView {
  wrapperStyle : list ViewStyle;
  sectionStyles : list (list ViewStyle)
}.

Definition renderFillers (style : Sheet.StyleSheet)
    (sheet : FillerSheet.FillerSheet)
    (marking : option Marking.MarkingProps) : option FillersView :=
  let fs := threeSectionFillerStyles style marking in
  match marking with
  | None => None
  | Some m =>
      if JS.truthyBool (Marking.isMultiPeriod m) then
        let hasLeft := JS.truthyStr (Marking.leftSectionColor m) in
        let hasMiddle := JS.truthyStr (Marking.middleSectionColor m) in
        let hasRight := JS.truthyStr (Marking.rightSectionColor m) in
        if hasLeft && hasRight && negb hasMiddle then
          Some (mkFillersView [FillerSheet.fillers sheet]
                  [[FillerSheet.leftFiller sheet; leftFillerStyle fs];
                   [FillerSheet.rightFiller sheet; rightFillerStyle fs]])
        else
          Some (mkFillersView [FillerSheet.fillers sheet]
                  [[FillerSheet.leftFiller sheet; leftFillerStyle fs];
                   [match FillerSheet.middleFiller sheet with
                    | Some c => c
                    | None => FillerSheet.leftFiller sheet
                    end; middleFillerStyle fs];
                   [FillerSheet.rightFiller sheet; rightFillerStyle fs]])
      else
        Some (mkFillersView [FillerSheet.fillers sheet; fillerStyle fs]
                [[FillerSheet.leftFiller sheet; leftFillerStyle fs];
                 [FillerSheet.rightFiller sheet; rightFillerStyle fs]])
  end.

(** ** The older variant of the component *)

(** The older, simpler [PeriodDay]: no defaults for width and radius, no
    middle filler, and an overlap layout driven by four extra colours of the
    marking. *)
Module Legacy.

(** The marking as the older variant reads it: the fields above and the
    four overlap colours. *)
Record MarkingProps : Type := mkMarkingProps {
  props : Marking.MarkingProps;
  endPeriodColor : option ColorValue;
  endPeriodBorderColor : option ColorValue;
  startPeriodColor : option ColorValue;
  startPeriodBorderColor : option ColorValue
}.

(** The object literal [{backgroundColor: marking.color,
    borderColor: marking.borderColor}] of the older [markingStyle]. *)
Definition periodStyle (m : Marking.MarkingProps) : ViewStyle :=
  mkViewStyle (Marking.color m) (Marking.borderColor m)
    None None None None None None None None None None None None.

Definition markingStyle (style : Sheet.StyleSheet)
    (marking : option MarkingProps) : MarkingStyle.MarkingStyle :=
  match marking with
  | None =>
      MarkingStyle.mkMarkingStyle (Some emptyView) (Some Text.empty)
        None None None
  | Some lm =>
      let m := props lm in
      let textStyle :=
        if JS.truthyBool (Marking.disabled m)
        then Some (Text.colorOnly (Text.color (Sheet.disabledText style)))
        else if JS.truthyBool (Marking.inactive m)
        then Some (Text.colorOnly (Text.color (Sheet.inactiveText style)))
        else if JS.truthyBool (Marking.selected m)
        then Some (Text.colorOnly (Text.color (Sheet.selectedText style)))
        else Some Text.empty in
      let startingDay :=
        if JS.truthyBool (Marking.startingDay m)
        then Some (periodStyle m) else None in
      let endingDay :=
        if JS.truthyBool (Marking.endingDay m)
        then Some (periodStyle m) else None in
      let day :=
        if negb (JS.truthyBool (Marking.startingDay m))
           && negb (JS.truthyBool (Marking.endingDay m))
        then Some (periodStyle m) else None in
      let textStyle :=
        if JS.truthyStr (Marking.textColor m)
        then Some (Text.colorOnly (Marking.textColor m)) else textStyle in
      let textStyle :=
        if JS.truthyObj (Marking.customTextStyle m)
        then Marking.customTextStyle m else textStyle in
      let containerStyle :=
        if JS.truthyObj (Marking.customContainerStyle m)
        then Marking.customContainerStyle m else Some emptyView in
      MarkingStyle.mkMarkingStyle containerStyle textStyle
        startingDay endingDay day
  end.

(** [{borderRadius: 17, overflow: 'hidden', paddingTop: 5}] *)
Definition baseContainerStyle : ViewStyle :=
  mkViewStyle None None None (Some 17%float)
    None None None None None None None None
    (Some "hidden") (Some 5%float).

Definition containerStyle (style : Sheet.StyleSheet)
    (marking : option MarkingProps) (state : option DayState)
    : list ViewStyle :=
  let cs := [Sheet.base style] in
  let cs :=
    if isToday (option_map props marking) state
    then cs ++ [Sheet.today style] else cs in
  match marking with
  | None => cs
  | Some _ =>
      let cs := cs ++ [baseContainerStyle] in
      let cs :=
        match MarkingStyle.startingDay (markingStyle style marking),
              MarkingStyle.endingDay (markingStyle style marking) with
        | Some start, None => cs ++ [backgroundOnly (backgroundColor start)]
        | None, Some end_ => cs ++ [backgroundOnly (backgroundColor end_)]
        | Some _, Some end_ => cs ++ [backgroundOnly (backgroundColor end_)]
        | None, None => cs
        end in
      match MarkingStyle.containerStyle (markingStyle style marking) with
      | Some c => cs ++ [c]
      | None => cs
      end
  end.

Record FillerStyles : Type := mkFillerStyles {
  leftFillerStyle : ViewStyle;
  rightFillerStyle : ViewStyle;
  fillerStyle : ViewStyle
}.

(** A filler after the assignments of one branch: every assignment is
    unconditional, so an absent width or radius is written as absent. *)
Definition filler (bg bc : option ColorValue)
    (top bottom left right : option number)
    (topLeft bottomLeft topRight bottomRight : option number) : ViewStyle :=
  mkViewStyle bg bc None None top bottom left right
    topLeft bottomLeft topRight bottomRight None None.

(** Optional chaining on a period style: [s?.backgroundColor] and
    [s?.borderColor]. *)
Definition backgroundOf (s : option ViewStyle) : option ColorValue :=
  match s with
  | Some v => backgroundColor v
  | None => None
  end.

Definition borderColorOf (s : option ViewStyle) : option ColorValue :=
  match s with
  | Some v => borderColor v
  | None => None
  end.

(** A field [f] of the marking; the overlap branch, the only one to read
    the overlap colours, is taken only when the marking is there. *)
Definition field {A : Type} (f : MarkingProps -> option A)
    (marking : option MarkingProps) : option A :=
  match marking with
  | Some lm => f lm
  | None => None
  end.

Definition fillerStyles (style : Sheet.StyleSheet)
    (marking : option MarkingProps) : FillerStyles :=
  let ms := markingStyle style marking in
  let start := MarkingStyle.startingDay ms in
  let end_ := MarkingStyle.endingDay ms in
  let day := MarkingStyle.day ms in
  let bw := optField Marking.borderWith (option_map props marking) in
  let br := optField Marking.borderRadius (option_map props marking) in
  let isOverlap :=
    JS.truthyBool (optField Marking.isMultiPeriod (option_map props marking))
    && JS.truthyObj start && JS.truthyObj end_ in
  if isOverlap then
    mkFillerStyles
      (filler (JS.orStr (field endPeriodColor marking) (backgroundOf end_))
         (JS.orStr (field endPeriodBorderColor marking) (borderColorOf end_))
         bw bw None bw None None br br)
      (filler (JS.orStr (field startPeriodColor marking) (backgroundOf start))
         (JS.orStr (field startPeriodBorderColor marking) (borderColorOf start))
         bw bw bw None br br None None)
      emptyView
  else if JS.truthyObj start && negb (JS.truthyObj end_) then
    mkFillerStyles
      (filler (backgroundOf start) (borderColorOf start)
         bw bw bw None br br None None)
      (filler (backgroundOf start) (borderColorOf start)
         bw bw None None None None None None)
      emptyView
  else if JS.truthyObj end_ && negb (JS.truthyObj start) then
    mkFillerStyles
      (filler (backgroundOf end_) (borderColorOf end_)
         bw bw None None None None None None)
      (filler (backgroundOf end_) (borderColorOf end_)
         bw bw None bw None None br br)
      emptyView
  else if JS.truthyObj day then
    mkFillerStyles
      (filler (backgroundOf day) (borderColorOf day)
         bw bw None None None None None None)
      (filler (backgroundOf day) (borderColorOf day)
         bw bw None None None None None None)
      (set_borderColor (borderColorOf day) emptyView)
  else
    mkFillerStyles emptyView emptyView emptyView.

End Legacy.

(** ** Conditional assignments *)

(** [if (c) section.p = v], as an update applied or not. *)
Definition applyWhen (c : bool) (f : ViewStyle -> ViewStyle) (s : ViewStyle)
    : ViewStyle :=
  if c then f s else s.

(** ** Mirror images *)

(** A style seen in a mirror: left and right edges and corners exchanged. *)
Definition mirrorStyle (s : ViewStyle) : ViewStyle :=
  mkViewStyle (backgroundColor s) (borderColor s) (borderWidth s)
    (borderRadius s) (borderTopWidth s) (borderBottomWidth s)
    (borderRightWidth s) (borderLeftWidth s)
    (borderTopRightRadius s) (borderBottomRightRadius s)
    (borderTopLeftRadius s) (borderBottomLeftRadius s)
    (overflow s) (paddingTop s).

Definition mirrorBorders (b : Borders) : Borders :=
  mkBorders (top b) (bottom b) (right b) (left b)
    (topRight b) (bottomRight b) (topLeft b) (bottomLeft b).

(** A marking seen in a mirror: start and end exchanged, left and right
    sections exchanged. *)
Definition mirrorMarking (m : Marking.MarkingProps) : Marking.MarkingProps :=
  Marking.mkMarkingProps (Marking.disabled m) (Marking.inactive m)
    (Marking.today m) (Marking.selected m) (Marking.disableTouchEvent m)
    (Marking.endingDay m) (Marking.startingDay m) (Marking.color m)
    (Marking.borderColor m) (Marking.borderWith m) (Marking.borderRadius m)
    (Marking.textColor m) (Marking.customTextStyle m)
    (Marking.customContainerStyle m) (Marking.isMultiPeriod m)
    (Marking.rightSectionColor m) (Marking.rightSectionBorderColor m)
    (Marking.middleSectionColor m) (Marking.middleSectionBorderColor m)
    (Marking.leftSectionColor m) (Marking.leftSectionBorderColor m)
    (Marking.rightSectionIsSingleDay m) (Marking.leftSectionIsSingleDay m).

Definition mirrorFillers (fs : ThreeSectionFillerStyles)
    : ThreeSectionFillerStyles :=
  mkThreeSectionFillerStyles (mirrorStyle (rightFillerStyle fs))
    (mirrorStyle (middleFillerStyle fs)) (mirrorStyle (leftFillerStyle fs))
    (mirrorStyle (fillerStyle fs)).

(** ** More ways to read a filler *)

(** An optional width or radius that is absent or equal to [v]. *)
Definition absentOr (v : number) (f : option number) : Prop :=
  f = None \/ f = Some v.

(** Every edge width of the style is absent or [w], every corner radius is
    absent or [r], and the two shorthand properties are absent. *)
Definition BordersFrom (w r : number) (s : ViewStyle) : Prop :=
  borderWidth s = None /\ borderRadius s = None
  /\ absentOr w (borderTopWidth s) /\ absentOr w (borderBottomWidth s)
  /\ absentOr w (borderLeftWidth s) /\ absentOr w (borderRightWidth s)
  /\ absentOr r (borderTopLeftRadius s) /\ absentOr r (borderBottomLeftRadius s)
  /\ absentOr r (borderTopRightRadius s)
  /\ absentOr r (borderBottomRightRadius s).

(** The colour a section filler shows: the section colour when it is
    present, the initial ['transparent'] otherwise. *)
Definition sectionBackground (c : option ColorValue) : option ColorValue :=
  if JS.truthyStr c then c else Some "transparent".

(** The border colour a section filler shows. *)
Definition sectionBorderColor (present : bool) (c : option ColorValue)
    : option ColorValue :=
  if present && JS.truthyStr c then c else None.

(** Two markings with the same multi-section fields. *)
Definition sameSections (a b : Marking.MarkingProps) : Prop :=
  Marking.borderWith a = Marking.borderWith b
  /\ Marking.borderRadius a = Marking.borderRadius b
  /\ Marking.leftSectionColor a = Marking.leftSectionColor b
  /\ Marking.leftSectionBorderColor a = Marking.leftSectionBorderColor b
  /\ Marking.middleSectionColor a = Marking.middleSectionColor b
  /\ Marking.middleSectionBorderColor a = Marking.middleSectionBorderColor b
  /\ Marking.rightSectionColor a = Marking.rightSectionColor b
  /\ Marking.rightSectionBorderColor a = Marking.rightSectionBorderColor b
  /\ Marking.leftSectionIsSingleDay a = Marking.leftSectionIsSingleDay b
  /\ Marking.rightSectionIsSingleDay a = Marking.rightSectionIsSingleDay b.

(** ** More sample inputs *)

(** [{endingDay: true, color: '#FF0000'}] *)
Definition endingDayMarking : Marking.MarkingProps :=
  Marking.mkMarkingProps None None None None None None (Some true)
    (Some "#FF0000") None None None None None None None None None None None
    None None None None.

(** [{color: '#FF0000'}] *)
Definition middleDayMarking : Marking.MarkingProps :=
  Marking.mkMarkingProps None None None None None None None
    (Some "#FF0000") None None None None None None None None None None None
    None None None None.

(** [{startingDay: true, color: '#FF0000', borderColor: '#880000',
      borderWith: 2, borderRadius: 4}] *)
Definition fullStartMarking : Marking.MarkingProps :=
  Marking.mkMarkingProps None None None None None (Some true) None
    (Some "#FF0000") (Some "#880000") (Some 2%float) (Some 4%float) None
    None None None None None None None None None None None.

(** [{isMultiPeriod: true, startingDay: true, endingDay: true,
      color: '#FF0000', endPeriodColor: '#00FF00'}] for the older variant. *)
Definition overlapMarking : Legacy.MarkingProps :=
  Legacy.mkMarkingProps
    (Marking.mkMarkingProps None None None None None (Some true) (Some true)
       (Some "#FF0000") None None None None None None (Some true) None None
       None None None None None None)
    (Some "#00FF00") None None None.

(** A filler sheet with empty styles and no [middleFiller]. *)
Definition plainFillerSheet : FillerSheet.FillerSheet :=
  FillerSheet.mkFillerSheet emptyView emptyView None emptyView.

(** The text colour a text style array resolves to: the last entry that
    supplies a [color] decides. *)
Definition resolvedTextColor (styles : list Text.TextStyle)
    : option ColorValue :=
  fold_left
    (fun acc s =>
       match Text.color s with
       | Some c => Some c
       | None => acc
       end)
    styles None.

(** [{selected: true}] *)
Definition selectedMarking : Marking.MarkingProps :=
  Marking.mkMarkingProps None None None (Some true) None None None None None
    None None None None None None None None None None None None None None.

(** ** Truthiness and defaults *)

Lemma truthy_not_zero (x : number) :
  JS.truthyNumber x = true -> JS.isZero x = false.
Proof.
  unfold JS.truthyNumber, JS.isZero.
  destruct (PrimFloat.eqb x 0); simpl; congruence.
Qed.

Lemma orNum_truthy (a : option number) (d : number) :
  JS.truthyNumber d = true -> JS.truthyNumber (JS.orNum a d) = true.
Proof.
  intros Hd. unfold JS.orNum.
  destruct a as [v|]; [|exact Hd].
  destruct (JS.truthyNumber v) eqn:Hv; [exact Hv | exact Hd].
Qed.

Lemma orNum_falsy (a : option number) (d : number) :
  JS.truthyNum a = false -> JS.orNum a d = d.
Proof.
  destruct a as [v|]; simpl; [|reflexivity].
  intros ->. reflexivity.
Qed.

Lemma fillerBorderWidth_truthy (m : Marking.MarkingProps) :
  JS.truthyNumber (fillerBorderWidth m) = true.
Proof. apply orNum_truthy. reflexivity. Qed.

Lemma fillerBorderRadius_truthy (m : Marking.MarkingProps) :
  JS.truthyNumber (fillerBorderRadius m) = true.
Proof. apply orNum_truthy. reflexivity. Qed.

Lemma orStr_same (a : option string) : JS.orStr a a = a.
Proof. unfold JS.orStr. destruct (JS.truthyStr a); reflexivity. Qed.

(** ** What [applyBorderToSection] writes *)

Ltac split_colours bg bc :=
  unfold applyFullyClosedBorder, applyBorderToSection;
  destruct (JS.truthyStr bg), (JS.truthyStr bc);
  repeat split; reflexivity.

Lemma applyBorder_rightClosed (bg bc : option ColorValue) (w r : number) :
  RightEdgeOnly w r (applyBorderToSection transparentFiller bg bc w r rightClosed).
Proof. split_colours bg bc. Qed.

Lemma applyBorder_leftClosed (bg bc : option ColorValue) (w r : number) :
  LeftEdgeOnly w r (applyBorderToSection transparentFiller bg bc w r leftClosed).
Proof. split_colours bg bc. Qed.

Lemma applyBorder_allClosed (bg bc : option ColorValue) (w r : number) :
  FullyClosed w r (applyFullyClosedBorder transparentFiller bg bc w r).
Proof. split_colours bg bc. Qed.

Lemma noZeroBorders_colours (s : ViewStyle) (bg bc : option ColorValue) :
  noZeroBorders s = true ->
  noZeroBorders (set_backgroundColor bg s) = true
  /\ noZeroBorders (set_borderColor bc s) = true.
Proof. intros Hs. split; exact Hs. Qed.

Ltac zero_free Hv Hs :=
  unfold noZeroBorders in *; simpl in *;
  repeat match goal with
         | H : _ && _ = true |- _ => apply andb_prop in H; destruct H
         end;
  rewrite Hv; simpl;
  repeat split;
  repeat (apply andb_true_intro; split); solve [assumption | reflexivity].

Lemma noZeroBorders_widths (s : ViewStyle) (v : number) :
  JS.isZero v = false -> noZeroBorders s = true ->
  noZeroBorders (set_borderTopWidth v s) = true
  /\ noZeroBorders (set_borderBottomWidth v s) = true
  /\ noZeroBorders (set_borderLeftWidth v s) = true
  /\ noZeroBorders (set_borderRightWidth v s) = true.
Proof. intros Hv Hs. zero_free Hv Hs. Qed.

Lemma noZeroBorders_radii (s : ViewStyle) (v : number) :
  JS.isZero v = false -> noZeroBorders s = true ->
  noZeroBorders (set_borderTopLeftRadius v s) = true
  /\ noZeroBorders (set_borderBottomLeftRadius v s) = true
  /\ noZeroBorders (set_borderTopRightRadius v s) = true
  /\ noZeroBorders (set_borderBottomRightRadius v s) = true.
Proof. intros Hv Hs. zero_free Hv Hs. Qed.

Lemma if_preserves {A : Type} (P : A -> Prop) (c : bool) (f : A -> A) (a : A) :
  (forall x, P x -> P (f x)) -> P a -> P (if c then f a else a).
Proof. destruct c; auto. Qed.

Lemma applyBorder_noZero (s : ViewStyle) (bg bc : option ColorValue)
    (w r : number) (b : Borders) :
  JS.truthyNumber w = true -> JS.truthyNumber r = true ->
  noZeroBorders s = true ->
  noZeroBorders (applyBorderToSection s bg bc w r b) = true.
Proof.
  intros Hw%truthy_not_zero Hr%truthy_not_zero Hs.
  unfold applyBorderToSection; cbv zeta.
  repeat (apply (if_preserves (fun x => noZeroBorders x = true));
          [ intros x Hx;
            first [ apply (noZeroBorders_widths x w Hw Hx)
                  | apply (noZeroBorders_radii x r Hr Hx)
                  | apply (noZeroBorders_colours x bg bc Hx) ] | ]).
  exact Hs.
Qed.

(** ** Single-section mode *)

(** With both flags set, [markingStyle] holds the same edge style twice. *)
Lemma markingStyle_single_day (style : Sheet.StyleSheet)
    (m : Marking.MarkingProps) :
  Marking.startingDay m = Some true ->
  Marking.endingDay m = Some true ->
  MarkingStyle.startingDay (markingStyle style (Some m)) = Some (periodEdgeStyle m)
  /\ MarkingStyle.endingDay (markingStyle style (Some m)) = Some (periodEdgeStyle m)
  /\ MarkingStyle.day (markingStyle style (Some m)) = None.
Proof.
  intros Hs He. unfold markingStyle; simpl. rewrite Hs, He. simpl. auto.
Qed.

(** In the single-day branch [handleSinglePeriod] leaves both fillers as
    they are and returns the enclosed shape. *)
Lemma threeSectionFillerStyles_single_day (style : Sheet.StyleSheet)
    (m : Marking.MarkingProps) :
  JS.truthyBool (Marking.isMultiPeriod m) = false ->
  Marking.startingDay m = Some true ->
  Marking.endingDay m = Some true ->
  threeSectionFillerStyles style (Some m)
  = mkThreeSectionFillerStyles transparentFiller transparentFiller
      transparentFiller
      (singleDayFiller (periodEdgeStyle m) (periodEdgeStyle m)
         (fillerBorderWidth m) (fillerBorderRadius m)).
Proof.
  intros Hm Hs He.
  destruct (markingStyle_single_day style m Hs He) as (Hs' & He' & _).
  unfold threeSectionFillerStyles, handleSinglePeriod.
  rewrite Hm, Hs', He'. reflexivity.
Qed.

(** C1, as stated, fails: for [{startingDay: true, endingDay: true,
    color: '#FF0000'}] the left and the right filler keep their initial
    [{backgroundColor: 'transparent'}] and carry no border at all, so
    neither is an enclosed shape. *)
Lemma single_day_side_fillers_not_enclosed :
  JS.truthyBool (Marking.isMultiPeriod singleDayMarking) = false
  /\ Marking.startingDay singleDayMarking = Some true
  /\ Marking.endingDay singleDayMarking = Some true
  /\ ~ Enclosed (leftFillerStyle
                   (threeSectionFillerStyles plainSheet (Some singleDayMarking)))
  /\ ~ Enclosed (rightFillerStyle
                   (threeSectionFillerStyles plainSheet (Some singleDayMarking))).
Proof.
  repeat split; try reflexivity;
    intros (w & r & _ & (Htop & _) & _); discriminate Htop.
Qed.

(** C1, amended: for every marking with [isMultiPeriod] falsy and both
    [startingDay] and [endingDay] true, the returned [fillerStyle] (the style
    of the view that wraps the two fillers) has all four edges at the same
    non-zero border width and all four corners at the border radius, while
    the left and the right filler stay [{backgroundColor: 'transparent'}]. *)
Theorem single_day_filler_enclosed (style : Sheet.StyleSheet)
    (m : Marking.MarkingProps) :
  JS.truthyBool (Marking.isMultiPeriod m) = false ->
  Marking.startingDay m = Some true ->
  Marking.endingDay m = Some true ->
  FullyClosed (fillerBorderWidth m) (fillerBorderRadius m)
    (fillerStyle (threeSectionFillerStyles style (Some m)))
  /\ JS.isZero (fillerBorderWidth m) = false
  /\ JS.isZero (fillerBorderRadius m) = false
  /\ Enclosed (fillerStyle (threeSectionFillerStyles style (Some m)))
  /\ leftFillerStyle (threeSectionFillerStyles style (Some m)) = transparentFiller
  /\ rightFillerStyle (threeSectionFillerStyles style (Some m)) = transparentFiller.
Proof.
  intros Hm Hs He.
  rewrite (threeSectionFillerStyles_single_day style m Hm Hs He); simpl.
  assert (Hw := truthy_not_zero _ (fillerBorderWidth_truthy m)).
  assert (Hr := truthy_not_zero _ (fillerBorderRadius_truthy m)).
  assert (Hc : FullyClosed (fillerBorderWidth m) (fillerBorderRadius m)
                 (singleDayFiller (periodEdgeStyle m) (periodEdgeStyle m)
                    (fillerBorderWidth m) (fillerBorderRadius m)))
    by (repeat split; reflexivity).
  repeat split; try assumption; try apply Hc.
  exists (fillerBorderWidth m), (fillerBorderRadius m). split; assumption.
Qed.

Lemma single_day_filler_enclosed_witness :
  FullyClosed (fillerBorderWidth singleDayMarking)
    (fillerBorderRadius singleDayMarking)
    (fillerStyle (threeSectionFillerStyles plainSheet (Some singleDayMarking)))
  /\ JS.isZero (fillerBorderWidth singleDayMarking) = false
  /\ JS.isZero (fillerBorderRadius singleDayMarking) = false
  /\ Enclosed (fillerStyle
                 (threeSectionFillerStyles plainSheet (Some singleDayMarking)))
  /\ leftFillerStyle (threeSectionFillerStyles plainSheet (Some singleDayMarking))
     = transparentFiller
  /\ rightFillerStyle (threeSectionFillerStyles plainSheet (Some singleDayMarking))
     = transparentFiller.
Proof.
  apply (single_day_filler_enclosed plainSheet singleDayMarking); reflexivity.
Defined.

(** In general [handleSinglePeriod] combines the two colours with [||]. *)
Lemma handleSinglePeriod_both (l r f start end_ : ViewStyle)
    (cs : option ViewStyle) (ts : option Text.TextStyle)
    (day : option ViewStyle) (bw br : number) :
  handleSinglePeriod l r f
    (MarkingStyle.mkMarkingStyle cs ts (Some start) (Some end_) day) bw br
  = (l, r, singleDayFiller start end_ bw br).
Proof. reflexivity. Qed.

(** C3: for every marking with [isMultiPeriod] falsy and both [startingDay]
    and [endingDay] true, the single-day filler style takes its
    [backgroundColor] and its [borderColor] from the start-derived style and
    turns to the end-derived one only when the start-derived value is
    absent, while the background pushed on the container is the one of the
    end-derived style.

    The first part is what the component returns for the marking; the other
    two say, for any two period styles [handleSinglePeriod] and the
    container may be given, which of the two is used: the start one for the
    filler, unless its value is falsy, and the end one for the container. *)
Theorem single_day_colour_precedence (style : Sheet.StyleSheet)
    (m : Marking.MarkingProps) (state : option DayState) :
  JS.truthyBool (Marking.isMultiPeriod m) = false ->
  Marking.startingDay m = Some true ->
  Marking.endingDay m = Some true ->
  (exists start end_ custom : ViewStyle,
      MarkingStyle.startingDay (markingStyle style (Some m)) = Some start
      /\ MarkingStyle.endingDay (markingStyle style (Some m)) = Some end_
      /\ MarkingStyle.containerStyle (markingStyle style (Some m)) = Some custom
      /\ fillerStyle (threeSectionFillerStyles style (Some m))
         = singleDayFiller start end_ (fillerBorderWidth m) (fillerBorderRadius m)
      /\ backgroundColor (fillerStyle (threeSectionFillerStyles style (Some m)))
         = nullish (backgroundColor start) (backgroundColor end_)
      /\ borderColor (fillerStyle (threeSectionFillerStyles style (Some m)))
         = nullish (borderColor start) (borderColor end_)
      /\ containerStyle style (Some m) state
         = [Sheet.base style]
           ++ (if isToday (Some m) state then [Sheet.today style] else [])
           ++ [baseContainerStyle m; backgroundOnly (backgroundColor end_); custom])
  /\ (forall (l r f start end_ : ViewStyle) (cs : option ViewStyle)
        (ts : option Text.TextStyle) (day : option ViewStyle) (bw br : number),
         exists filler : ViewStyle,
           handleSinglePeriod l r f
             (MarkingStyle.mkMarkingStyle cs ts (Some start) (Some end_) day)
             bw br
           = (l, r, filler)
           /\ backgroundColor filler
              = (if JS.truthyStr (backgroundColor start)
                 then backgroundColor start else backgroundColor end_)
           /\ borderColor filler
              = (if JS.truthyStr (borderColor start)
                 then borderColor start else borderColor end_))
  /\ (forall (ms : MarkingStyle.MarkingStyle) (start end_ : ViewStyle),
         MarkingStyle.startingDay ms = Some start ->
         MarkingStyle.endingDay ms = Some end_ ->
         containerStyleOf style (Some m) state ms
         = [Sheet.base style]
           ++ (if isToday (Some m) state then [Sheet.today style] else [])
           ++ [baseContainerStyle m; backgroundOnly (backgroundColor end_)]
           ++ match MarkingStyle.containerStyle ms with
              | Some c => [c]
              | None => []
              end).
Proof.
  intros Hm Hs He.
  split; [|split].
  - destruct (markingStyle_single_day style m Hs He) as (Hs' & He' & _).
    exists (periodEdgeStyle m), (periodEdgeStyle m).
    exists (match Marking.customContainerStyle m with
            | Some c => c
            | None => emptyView
            end).
    rewrite (threeSectionFillerStyles_single_day style m Hm Hs He).
    split; [exact Hs'|]. split; [exact He'|].
    split; [|split; [|split; [|split]]].
    + unfold markingStyle; simpl.
      destruct (Marking.customContainerStyle m); reflexivity.
    + reflexivity.
    + simpl. rewrite orStr_same. destruct (Marking.color m); reflexivity.
    + simpl. rewrite orStr_same.
      destruct (JS.orStr (Marking.borderColor m) (Marking.color m)); reflexivity.
    + unfold containerStyle, containerStyleOf. rewrite Hm, Hs', He'.
      unfold markingStyle; simpl.
      destruct (isToday (Some m) state), (Marking.customContainerStyle m);
        reflexivity.
  - intros l r f start end_ cs ts day bw br.
    exists (singleDayFiller start end_ bw br).
    split; [reflexivity|]. split; reflexivity.
  - intros ms start end_ Hstart Hend.
    unfold containerStyleOf. rewrite Hm, Hstart, Hend.
    destruct (isToday (Some m) state), (MarkingStyle.containerStyle ms);
      reflexivity.
Qed.

(** With a start style [{backgroundColor: '#111111'}] and an end style
    [{backgroundColor: '#222222', borderColor: '#333333'}] the filler takes
    the start background and, the start style having no border colour, the
    end border colour; the container takes the end background. *)
Lemma single_day_colour_precedence_witness :
  (exists filler : ViewStyle,
      handleSinglePeriod transparentFiller transparentFiller emptyView
        (MarkingStyle.mkMarkingStyle (Some emptyView) (Some Text.empty)
           (Some (backgroundOnly (Some "#111111")))
           (Some (set_borderColor (Some "#333333")
                    (backgroundOnly (Some "#222222"))))
           None)
        0.7%float 9%float
      = (transparentFiller, transparentFiller, filler)
      /\ backgroundColor filler = Some "#111111"
      /\ borderColor filler = Some "#333333")
  /\ containerStyleOf plainSheet (Some singleDayMarking) (Some StateNone)
       (MarkingStyle.mkMarkingStyle (Some emptyView) (Some Text.empty)
          (Some (backgroundOnly (Some "#111111")))
          (Some (set_borderColor (Some "#333333")
                   (backgroundOnly (Some "#222222"))))
          None)
     = [Sheet.base plainSheet; baseContainerStyle singleDayMarking;
        backgroundOnly (Some "#222222"); emptyView].
Proof.
  destruct (single_day_colour_precedence plainSheet singleDayMarking
              (Some StateNone) eq_refl eq_refl eq_refl)
    as (_ & Hfiller & Hcontainer).
  split.
  - exact (Hfiller transparentFiller transparentFiller emptyView
             (backgroundOnly (Some "#111111"))
             (set_borderColor (Some "#333333") (backgroundOnly (Some "#222222")))
             (Some emptyView) (Some Text.empty) None 0.7%float 9%float).
  - exact (Hcontainer
             (MarkingStyle.mkMarkingStyle (Some emptyView) (Some Text.empty)
                (Some (backgroundOnly (Some "#111111")))
                (Some (set_borderColor (Some "#333333")
                         (backgroundOnly (Some "#222222"))))
                None)
             (backgroundOnly (Some "#111111"))
             (set_borderColor (Some "#333333") (backgroundOnly (Some "#222222")))
             eq_refl eq_refl).
Defined.

(** C6: for [state = ''] and the marking [{startingDay: true,
    color: '#FF0000'}] the left filler has background ['#FF0000'], left
    border width 0.7 and both left corner radii 9; the right filler has
    background ['#FF0000'], top and bottom border width 0.7 and no corner
    radius on either side; the container background is ['#FF0000']. *)
Theorem starting_day_example (style : Sheet.StyleSheet) :
  (backgroundColor
     (leftFillerStyle (threeSectionFillerStyles style (Some startingDayMarking)))
   = Some "#FF0000"
   /\ borderLeftWidth
        (leftFillerStyle (threeSectionFillerStyles style (Some startingDayMarking)))
      = Some 0.7%float
   /\ borderTopLeftRadius
        (leftFillerStyle (threeSectionFillerStyles style (Some startingDayMarking)))
      = Some 9%float
   /\ borderBottomLeftRadius
        (leftFillerStyle (threeSectionFillerStyles style (Some startingDayMarking)))
      = Some 9%float)
  /\ (backgroundColor
        (rightFillerStyle (threeSectionFillerStyles style (Some startingDayMarking)))
      = Some "#FF0000"
      /\ borderTopWidth
           (rightFillerStyle (threeSectionFillerStyles style (Some startingDayMarking)))
         = Some 0.7%float
      /\ borderBottomWidth
           (rightFillerStyle (threeSectionFillerStyles style (Some startingDayMarking)))
         = Some 0.7%float
      /\ OpenLeft
           (rightFillerStyle (threeSectionFillerStyles style (Some startingDayMarking)))
      /\ OpenRight
           (rightFillerStyle (threeSectionFillerStyles style (Some startingDayMarking))))
  /\ containerStyle style (Some startingDayMarking) (Some StateNone)
     = [Sheet.base style; baseContainerStyle startingDayMarking;
        backgroundOnly (Some "#FF0000"); emptyView]
  /\ resolvedBackground
       (containerStyle style (Some startingDayMarking) (Some StateNone))
     = Some "#FF0000".
Proof.
  split; [|split; [|split]].
  - repeat split.
  - repeat split.
  - reflexivity.
  - unfold resolvedBackground; simpl.
    destruct (backgroundColor (Sheet.base style)); reflexivity.
Qed.

(** ** Touch gating *)

(** C7: an explicit boolean [marking.disableTouchEvent] alone decides;
    otherwise, when the cell is disabled and
    [disableAllTouchEventsForDisabledDays] is a boolean, that flag decides;
    otherwise, when the cell is inactive and
    [disableAllTouchEventsForInactiveDays] is a boolean, that flag decides;
    otherwise touch is not suppressed. *)
Theorem touch_precedence (marking : option Marking.MarkingProps)
    (state : option DayState) (forDisabled forInactive : option bool) :
  (forall b,
      optField Marking.disableTouchEvent marking = Some b ->
      shouldDisableTouchEvent marking state forDisabled forInactive = b)
  /\ (forall b,
         optField Marking.disableTouchEvent marking = None ->
         isDisabled marking state = true ->
         forDisabled = Some b ->
         shouldDisableTouchEvent marking state forDisabled forInactive = b)
  /\ (forall b,
         optField Marking.disableTouchEvent marking = None ->
         isDisabled marking state = false \/ forDisabled = None ->
         isInactive marking state = true ->
         forInactive = Some b ->
         shouldDisableTouchEvent marking state forDisabled forInactive = b)
  /\ (optField Marking.disableTouchEvent marking = None ->
      isDisabled marking state = false \/ forDisabled = None ->
      isInactive marking state = false \/ forInactive = None ->
      shouldDisableTouchEvent marking state forDisabled forInactive = false).
Proof.
  unfold shouldDisableTouchEvent.
  destruct (optField Marking.disableTouchEvent marking) as [explicit|],
    forDisabled as [fd|], forInactive as [fi|],
    (isDisabled marking state), (isInactive marking state);
    repeat split; intros; intuition congruence.
Qed.

(** An explicit [disableTouchEvent: false] keeps a disabled cell
    interactive although both caller flags ask for suppression. *)
Lemma touch_precedence_witness :
  shouldDisableTouchEvent (Some touchableDisabledMarking) (Some StateInactive)
    (Some true) (Some true) = false.
Proof.
  exact (proj1 (touch_precedence (Some touchableDisabledMarking)
                  (Some StateInactive) (Some true) (Some true))
           false eq_refl).
Defined.

(** ** Text style *)


(** ** Multi-period mode *)

(** C4: with [isMultiPeriod] set, the left and right section colours
    present, the middle one absent and neither single-day flag set, the left
    filler closes only its right edge, the right filler only its left edge,
    and the middle filler stays [{backgroundColor: 'transparent'}]. *)
Theorem two_section_open_periods (style : Sheet.StyleSheet)
    (m : Marking.MarkingProps) :
  JS.truthyBool (Marking.isMultiPeriod m) = true ->
  hasLeft m = true -> hasRight m = true -> hasMiddle m = false ->
  JS.truthyBool (Marking.leftSectionIsSingleDay m) = false ->
  JS.truthyBool (Marking.rightSectionIsSingleDay m) = false ->
  RightEdgeOnly (fillerBorderWidth m) (fillerBorderRadius m)
    (leftFillerStyle (threeSectionFillerStyles style (Some m)))
  /\ LeftEdgeOnly (fillerBorderWidth m) (fillerBorderRadius m)
       (rightFillerStyle (threeSectionFillerStyles style (Some m)))
  /\ middleFillerStyle (threeSectionFillerStyles style (Some m))
     = transparentFiller.
Proof.
  unfold hasLeft, hasRight, hasMiddle.
  intros Hm Hl Hr Hc Hls Hrs.
  unfold threeSectionFillerStyles, handleTwoSectionMultiPeriod.
  rewrite Hm, Hl, Hr, Hc, Hls, Hrs; simpl.
  split; [apply applyBorder_rightClosed|].
  split; [apply applyBorder_leftClosed|reflexivity].
Qed.

Lemma two_section_open_periods_witness :
  RightEdgeOnly (fillerBorderWidth leftRightMarking)
    (fillerBorderRadius leftRightMarking)
    (leftFillerStyle (threeSectionFillerStyles plainSheet (Some leftRightMarking)))
  /\ LeftEdgeOnly (fillerBorderWidth leftRightMarking)
       (fillerBorderRadius leftRightMarking)
       (rightFillerStyle (threeSectionFillerStyles plainSheet (Some leftRightMarking)))
  /\ middleFillerStyle (threeSectionFillerStyles plainSheet (Some leftRightMarking))
     = transparentFiller.
Proof.
  apply (two_section_open_periods plainSheet leftRightMarking); reflexivity.
Defined.

(** C5: with [isMultiPeriod] set and all three section colours present, the
    left filler closes only its right edge, the middle filler is closed on
    all four edges and corners, and the right filler closes only its left
    edge, whatever the two single-day flags are. *)
Theorem three_section_layout (style : Sheet.StyleSheet)
    (m : Marking.MarkingProps) :
  JS.truthyBool (Marking.isMultiPeriod m) = true ->
  hasLeft m = true -> hasMiddle m = true -> hasRight m = true ->
  RightEdgeOnly (fillerBorderWidth m) (fillerBorderRadius m)
    (leftFillerStyle (threeSectionFillerStyles style (Some m)))
  /\ FullyClosed (fillerBorderWidth m) (fillerBorderRadius m)
       (middleFillerStyle (threeSectionFillerStyles style (Some m)))
  /\ LeftEdgeOnly (fillerBorderWidth m) (fillerBorderRadius m)
       (rightFillerStyle (threeSectionFillerStyles style (Some m))).
Proof.
  unfold hasLeft, hasRight, hasMiddle.
  intros Hm Hl Hc Hr.
  unfold threeSectionFillerStyles, handleThreeSectionMultiPeriod.
  rewrite Hm, Hl, Hr, Hc; simpl.
  split; [apply applyBorder_rightClosed|].
  split; [apply applyBorder_allClosed|apply applyBorder_leftClosed].
Qed.

Lemma three_section_layout_witness :
  RightEdgeOnly (fillerBorderWidth threeSectionMarking)
    (fillerBorderRadius threeSectionMarking)
    (leftFillerStyle (threeSectionFillerStyles plainSheet (Some threeSectionMarking)))
  /\ FullyClosed (fillerBorderWidth threeSectionMarking)
       (fillerBorderRadius threeSectionMarking)
       (middleFillerStyle (threeSectionFillerStyles plainSheet (Some threeSectionMarking)))
  /\ LeftEdgeOnly (fillerBorderWidth threeSectionMarking)
       (fillerBorderRadius threeSectionMarking)
       (rightFillerStyle (threeSectionFillerStyles plainSheet (Some threeSectionMarking))).
Proof.
  apply (three_section_layout plainSheet threeSectionMarking); reflexivity.
Defined.

(** C2, as stated, fails: in [{isMultiPeriod: true,
    leftSectionColor: '#AA0000', middleSectionColor: '#00AA00'}] nothing
    lies to the left of the left section, yet its filler has no left border
    and no left corner radius; the edge it closes is the right one, towards
    its sibling. *)
Lemma fallback_left_with_sibling_open_on_left :
  JS.truthyBool (Marking.isMultiPeriod leftMiddleMarking) = true
  /\ isFallbackCombination leftMiddleMarking = true
  /\ borderLeftWidth
       (leftFillerStyle (threeSectionFillerStyles plainSheet (Some leftMiddleMarking)))
     = None
  /\ borderRightWidth
       (leftFillerStyle (threeSectionFillerStyles plainSheet (Some leftMiddleMarking)))
     = Some 0.7%float
  /\ ~ FallbackRuleAsSpecified
         (threeSectionFillerStyles plainSheet (Some leftMiddleMarking))
         leftMiddleMarking.
Proof.
  repeat split.
  intros (Hleft & _).
  destruct (Hleft eq_refl) as (Hwidth & _).
  discriminate Hwidth.
Qed.

(** C2, amended: with [isMultiPeriod] set and a section-colour combination
    that is neither exactly left and right nor all three, a lone left or
    right section is closed on all four sides; a left section with a sibling
    closes only its right edge and a right section with a sibling only its
    left edge; a present middle section is closed on all four sides; the
    filler of an absent section stays [{backgroundColor: 'transparent'}]. *)
Theorem fallback_rule (style : Sheet.StyleSheet) (m : Marking.MarkingProps) :
  JS.truthyBool (Marking.isMultiPeriod m) = true ->
  isFallbackCombination m = true ->
  (hasLeft m = true -> hasMiddle m = false -> hasRight m = false ->
   FullyClosed (fillerBorderWidth m) (fillerBorderRadius m)
     (leftFillerStyle (threeSectionFillerStyles style (Some m))))
  /\ (hasLeft m = true -> hasMiddle m = true ->
      RightEdgeOnly (fillerBorderWidth m) (fillerBorderRadius m)
        (leftFillerStyle (threeSectionFillerStyles style (Some m))))
  /\ (hasRight m = true -> hasMiddle m = false -> hasLeft m = false ->
      FullyClosed (fillerBorderWidth m) (fillerBorderRadius m)
        (rightFillerStyle (threeSectionFillerStyles style (Some m))))
  /\ (hasRight m = true -> hasMiddle m = true ->
      LeftEdgeOnly (fillerBorderWidth m) (fillerBorderRadius m)
        (rightFillerStyle (threeSectionFillerStyles style (Some m))))
  /\ (hasMiddle m = true ->
      FullyClosed (fillerBorderWidth m) (fillerBorderRadius m)
        (middleFillerStyle (threeSectionFillerStyles style (Some m))))
  /\ (hasLeft m = false ->
      leftFillerStyle (threeSectionFillerStyles style (Some m)) = transparentFiller)
  /\ (hasMiddle m = false ->
      middleFillerStyle (threeSectionFillerStyles style (Some m)) = transparentFiller)
  /\ (hasRight m = false ->
      rightFillerStyle (threeSectionFillerStyles style (Some m)) = transparentFiller).
Proof.
  unfold isFallbackCombination, hasLeft, hasRight, hasMiddle.
  intros Hm Hcomb.
  unfold threeSectionFillerStyles, handleFallbackMultiPeriod.
  rewrite Hm.
  destruct (JS.truthyStr (Marking.leftSectionColor m)),
    (JS.truthyStr (Marking.middleSectionColor m)),
    (JS.truthyStr (Marking.rightSectionColor m));
    try discriminate Hcomb;
    cbn -[applyBorderToSection applyFullyClosedBorder fillerBorderWidth
          fillerBorderRadius transparentFiller];
    repeat match goal with |- _ /\ _ => split end;
    intros; try discriminate;
    match goal with
    | |- FullyClosed _ _ _ => apply applyBorder_allClosed
    | |- RightEdgeOnly _ _ _ => apply applyBorder_rightClosed
    | |- LeftEdgeOnly _ _ _ => apply applyBorder_leftClosed
    | |- _ = _ => reflexivity
    end.
Qed.

Lemma fallback_rule_witness :
  RightEdgeOnly (fillerBorderWidth leftMiddleMarking)
    (fillerBorderRadius leftMiddleMarking)
    (leftFillerStyle (threeSectionFillerStyles plainSheet (Some leftMiddleMarking)))
  /\ FullyClosed (fillerBorderWidth leftMiddleMarking)
       (fillerBorderRadius leftMiddleMarking)
       (middleFillerStyle (threeSectionFillerStyles plainSheet (Some leftMiddleMarking)))
  /\ rightFillerStyle (threeSectionFillerStyles plainSheet (Some leftMiddleMarking))
     = transparentFiller.
Proof.
  destruct (fallback_rule plainSheet leftMiddleMarking eq_refl eq_refl)
    as (_ & Hleft & _ & _ & Hmiddle & _ & _ & Hright).
  split; [exact (Hleft eq_refl eq_refl)|].
  split; [exact (Hmiddle eq_refl)|exact (Hright eq_refl)].
Defined.

(** ** Container background *)

Lemma resolvedBackground_last_two (pre : list ViewStyle) (c : ColorValue)
    (custom : ViewStyle) :
  resolvedBackground (pre ++ [backgroundOnly (Some c); custom])
  = match backgroundColor custom with
    | Some own => Some own
    | None => Some c
    end.
Proof.
  unfold resolvedBackground. rewrite fold_left_app. reflexivity.
Qed.

(** C9, as stated, fails: for [{isMultiPeriod: true, color: '#FF0000',
    customContainerStyle: {backgroundColor: 'red'}}] the caller's container
    style is pushed after the transparent entry, and the container resolves
    to ['red']. *)
Lemma multi_period_custom_background_wins :
  JS.truthyBool (Marking.isMultiPeriod customContainerMarking) = true
  /\ containerStyle plainSheet (Some customContainerMarking) (Some StateNone)
     = [Sheet.base plainSheet; baseContainerStyle customContainerMarking;
        backgroundOnly (Some "transparent"); backgroundOnly (Some "red")]
  /\ resolvedBackground
       (containerStyle plainSheet (Some customContainerMarking) (Some StateNone))
     <> Some "transparent".
Proof.
  split; [reflexivity|]. split; [reflexivity|].
  intros H. discriminate H.
Qed.

(** C9, amended: with [isMultiPeriod] set, the entry the mode pushes on the
    container is [{backgroundColor: 'transparent'}], never a colour of the
    marking; only the caller's [customContainerStyle] follows it, so the
    container resolves to the background of that custom style when it has
    one and to transparent otherwise. *)
Theorem multi_period_container_background (style : Sheet.StyleSheet)
    (m : Marking.MarkingProps) (state : option DayState) :
  JS.truthyBool (Marking.isMultiPeriod m) = true ->
  (exists custom : ViewStyle,
      MarkingStyle.containerStyle (markingStyle style (Some m)) = Some custom
      /\ backgroundColor custom = customBackground m
      /\ containerStyle style (Some m) state
         = ([Sheet.base style]
            ++ (if isToday (Some m) state then [Sheet.today style] else [])
            ++ [baseContainerStyle m])
           ++ [backgroundOnly (Some "transparent"); custom])
  /\ resolvedBackground (containerStyle style (Some m) state)
     = match customBackground m with
       | Some own => Some own
       | None => Some "transparent"
       end
  /\ (customBackground m = None ->
      resolvedBackground (containerStyle style (Some m) state)
      = Some "transparent").
Proof.
  intros Hm.
  assert (Hshape :
    exists custom : ViewStyle,
      MarkingStyle.containerStyle (markingStyle style (Some m)) = Some custom
      /\ backgroundColor custom = customBackground m
      /\ containerStyle style (Some m) state
         = ([Sheet.base style]
            ++ (if isToday (Some m) state then [Sheet.today style] else [])
            ++ [baseContainerStyle m])
           ++ [backgroundOnly (Some "transparent"); custom]).
  { unfold containerStyle, containerStyleOf, customBackground. rewrite Hm.
    unfold markingStyle; simpl.
    destruct (Marking.customContainerStyle m) as [c|]; simpl;
      eexists; (split; [reflexivity|]); (split; [reflexivity|]);
      destruct (isToday (Some m) state); reflexivity. }
  split; [exact Hshape|].
  destruct Hshape as (custom & _ & Hbg & ->).
  rewrite resolvedBackground_last_two, Hbg.
  split; [reflexivity|]. intros ->. reflexivity.
Qed.

Lemma multi_period_container_background_witness :
  resolvedBackground
    (containerStyle plainSheet (Some multiPeriodMarking) (Some StateNone))
  = Some "transparent".
Proof.
  exact (proj2 (proj2 (multi_period_container_background plainSheet
                         multiPeriodMarking (Some StateNone) eq_refl))
           eq_refl).
Defined.

(** ** Zero widths and radii *)

Lemma singleDayFiller_noZero (start end_ : ViewStyle) (w r : number) :
  JS.truthyNumber w = true -> JS.truthyNumber r = true ->
  noZeroBorders (singleDayFiller start end_ w r) = true.
Proof.
  intros Hw%truthy_not_zero Hr%truthy_not_zero.
  unfold noZeroBorders; simpl. rewrite Hw, Hr. reflexivity.
Qed.

Lemma middleDayFiller_noZero (day : ViewStyle) (w : number) :
  JS.truthyNumber w = true -> noZeroBorders (middleDayFiller day w) = true.
Proof.
  intros Hw%truthy_not_zero.
  unfold noZeroBorders; simpl. rewrite Hw. reflexivity.
Qed.

Ltac filler_zero_free :=
  match goal with
  | |- noZeroBorders (applyFullyClosedBorder _ _ _ _ _) = true =>
      unfold applyFullyClosedBorder; filler_zero_free
  | |- noZeroBorders (applyBorderToSection _ _ _ _ _ _) = true =>
      apply applyBorder_noZero;
      [apply fillerBorderWidth_truthy | apply fillerBorderRadius_truthy
      | reflexivity]
  | |- noZeroBorders (singleDayFiller _ _ _ _) = true =>
      apply singleDayFiller_noZero;
      [apply fillerBorderWidth_truthy | apply fillerBorderRadius_truthy]
  | |- noZeroBorders (middleDayFiller _ _) = true =>
      apply middleDayFiller_noZero; apply fillerBorderWidth_truthy
  | |- noZeroBorders transparentFiller = true => reflexivity
  | |- noZeroBorders emptyView = true => reflexivity
  end.

(** No filler style ever carries a zero border width or corner radius. *)
Lemma threeSectionFillerStyles_noZero (style : Sheet.StyleSheet)
    (marking : option Marking.MarkingProps) :
  noZeroBorders (leftFillerStyle (threeSectionFillerStyles style marking)) = true
  /\ noZeroBorders (middleFillerStyle (threeSectionFillerStyles style marking)) = true
  /\ noZeroBorders (rightFillerStyle (threeSectionFillerStyles style marking)) = true
  /\ noZeroBorders (fillerStyle (threeSectionFillerStyles style marking)) = true.
Proof.
  destruct marking as [m|]; [|repeat split].
  unfold threeSectionFillerStyles, handleTwoSectionMultiPeriod,
    handleThreeSectionMultiPeriod, handleFallbackMultiPeriod,
    handleSinglePeriod.
  destruct (JS.truthyBool (Marking.isMultiPeriod m)).
  - destruct (JS.truthyStr (Marking.leftSectionColor m)),
      (JS.truthyStr (Marking.middleSectionColor m)),
      (JS.truthyStr (Marking.rightSectionColor m));
      cbn -[applyBorderToSection applyFullyClosedBorder fillerBorderWidth
            fillerBorderRadius transparentFiller emptyView noZeroBorders];
      repeat match goal with
             | |- _ /\ _ => split
             | |- context [if ?c then _ else _] => destruct c
             end;
      filler_zero_free.
  - destruct (MarkingStyle.startingDay (markingStyle style (Some m))),
      (MarkingStyle.endingDay (markingStyle style (Some m))),
      (MarkingStyle.day (markingStyle style (Some m)));
      cbn -[applyBorderToSection applyFullyClosedBorder fillerBorderWidth
            fillerBorderRadius transparentFiller emptyView noZeroBorders
            singleDayFiller middleDayFiller];
      repeat split; filler_zero_free.
Qed.

Lemma markingStyle_noZero (style : Sheet.StyleSheet)
    (m : Marking.MarkingProps) :
  noZeroBordersOpt (MarkingStyle.startingDay (markingStyle style (Some m))) = true
  /\ noZeroBordersOpt (MarkingStyle.endingDay (markingStyle style (Some m))) = true
  /\ noZeroBordersOpt (MarkingStyle.day (markingStyle style (Some m))) = true.
Proof.
  assert (Hw := truthy_not_zero _ (orNum_truthy (Marking.borderWith m)
                                     0.7%float eq_refl)).
  assert (Hr := truthy_not_zero _ (orNum_truthy (Marking.borderRadius m)
                                     9%float eq_refl)).
  unfold markingStyle; simpl.
  destruct (JS.truthyBool (Marking.startingDay m)),
    (JS.truthyBool (Marking.endingDay m)); simpl;
    unfold noZeroBorders; simpl; rewrite ?Hw, ?Hr; repeat split.
Qed.

(** A falsy [borderWith] or [borderRadius] is replaced by the default at
    every place that reads it. *)
Lemma zero_borderWith_as_absent (m : Marking.MarkingProps) :
  fillerBorderWidth (with_borderWith (Some 0%float) m)
  = fillerBorderWidth (with_borderWith None m)
  /\ periodEdgeStyle (with_borderWith (Some 0%float) m)
     = periodEdgeStyle (with_borderWith None m)
  /\ periodDayStyle (with_borderWith (Some 0%float) m)
     = periodDayStyle (with_borderWith None m).
Proof. repeat split. Qed.

Lemma zero_borderRadius_as_absent (m : Marking.MarkingProps) :
  fillerBorderRadius (with_borderRadius (Some 0%float) m)
  = fillerBorderRadius (with_borderRadius None m)
  /\ periodEdgeStyle (with_borderRadius (Some 0%float) m)
     = periodEdgeStyle (with_borderRadius None m)
  /\ baseContainerStyle (with_borderRadius (Some 0%float) m)
     = baseContainerStyle (with_borderRadius None m).
Proof. repeat split. Qed.

(** C10: an explicit zero in [marking.borderWith] or [marking.borderRadius]
    gives the same styles as an absent field: the border width used is 0.7,
    the corner radius used is 9 for the fillers and 17 for the container;
    and no marking yields a zero border width or corner radius in a filler
    style, in a period style of [markingStyle] or in the base container
    style. *)
Theorem zero_width_and_radius_replaced (style : Sheet.StyleSheet)
    (m : Marking.MarkingProps) (state : option DayState) :
  (threeSectionFillerStyles style (Some (with_borderWith (Some 0%float) m))
   = threeSectionFillerStyles style (Some (with_borderWith None m))
   /\ markingStyle style (Some (with_borderWith (Some 0%float) m))
      = markingStyle style (Some (with_borderWith None m))
   /\ containerStyle style (Some (with_borderWith (Some 0%float) m)) state
      = containerStyle style (Some (with_borderWith None m)) state)
  /\ (threeSectionFillerStyles style (Some (with_borderRadius (Some 0%float) m))
      = threeSectionFillerStyles style (Some (with_borderRadius None m))
      /\ markingStyle style (Some (with_borderRadius (Some 0%float) m))
         = markingStyle style (Some (with_borderRadius None m))
      /\ containerStyle style (Some (with_borderRadius (Some 0%float) m)) state
         = containerStyle style (Some (with_borderRadius None m)) state)
  /\ (fillerBorderWidth (with_borderWith (Some 0%float) m) = 0.7%float
      /\ fillerBorderRadius (with_borderRadius (Some 0%float) m) = 9%float
      /\ borderRadius (baseContainerStyle (with_borderRadius (Some 0%float) m))
         = Some 17%float)
  /\ (JS.isZero (fillerBorderWidth m) = false
      /\ JS.isZero (fillerBorderRadius m) = false
      /\ noZeroBorders (leftFillerStyle (threeSectionFillerStyles style (Some m)))
         = true
      /\ noZeroBorders (middleFillerStyle (threeSectionFillerStyles style (Some m)))
         = true
      /\ noZeroBorders (rightFillerStyle (threeSectionFillerStyles style (Some m)))
         = true
      /\ noZeroBorders (fillerStyle (threeSectionFillerStyles style (Some m)))
         = true
      /\ noZeroBordersOpt (MarkingStyle.startingDay (markingStyle style (Some m)))
         = true
      /\ noZeroBordersOpt (MarkingStyle.endingDay (markingStyle style (Some m)))
         = true
      /\ noZeroBordersOpt (MarkingStyle.day (markingStyle style (Some m)))
         = true
      /\ noZeroBorders (baseContainerStyle m) = true).
Proof.
  split; [repeat split|].
  split; [repeat split|].
  split; [repeat split|].
  split; [apply truthy_not_zero, fillerBorderWidth_truthy|].
  split; [apply truthy_not_zero, fillerBorderRadius_truthy|].
  destruct (threeSectionFillerStyles_noZero style (Some m))
    as (Hl & Hc & Hr & Hf).
  destruct (markingStyle_noZero style m) as (Hs & He & Hd).
  repeat (split; [assumption|]).
  unfold noZeroBorders, baseContainerStyle; simpl.
  rewrite (truthy_not_zero _ (orNum_truthy (Marking.borderRadius m)
                                17%float eq_refl)).
  reflexivity.
Qed.

(** ** [applyBorderToSection] as a chain of conditional assignments *)

Lemma applyBorderToSection_chain (s : ViewStyle) (bg bc : option ColorValue)
    (w r : number) (b : Borders) :
  applyBorderToSection s bg bc w r b
  = applyWhen (bottomRight b) (set_borderBottomRightRadius r)
      (applyWhen (topRight b) (set_borderTopRightRadius r)
         (applyWhen (bottomLeft b) (set_borderBottomLeftRadius r)
            (applyWhen (topLeft b) (set_borderTopLeftRadius r)
               (applyWhen (right b) (set_borderRightWidth w)
                  (applyWhen (left b) (set_borderLeftWidth w)
                     (applyWhen (bottom b) (set_borderBottomWidth w)
                        (applyWhen (top b) (set_borderTopWidth w)
                           (applyWhen (JS.truthyStr bc) (set_borderColor bc)
                              (applyWhen (JS.truthyStr bg)
                                 (set_backgroundColor bg) s))))))))).
Proof. reflexivity. Qed.

Lemma applyWhen_keeps {B : Type} (g : ViewStyle -> B) (c : bool)
    (f : ViewStyle -> ViewStyle) (s : ViewStyle) :
  (forall x, g (f x) = g x) -> g (applyWhen c f s) = g s.
Proof. intros H. destruct c; [apply H | reflexivity]. Qed.

Lemma applyWhen_preserves (P : ViewStyle -> Prop) (c : bool)
    (f : ViewStyle -> ViewStyle) (s : ViewStyle) :
  (forall x, P x -> P (f x)) -> P s -> P (applyWhen c f s).
Proof. destruct c; simpl; auto. Qed.

Lemma mirror_applyWhen (c : bool) (f g : ViewStyle -> ViewStyle)
    (s : ViewStyle) :
  (forall x, mirrorStyle (f x) = g (mirrorStyle x)) ->
  mirrorStyle (applyWhen c f s) = applyWhen c g (mirrorStyle s).
Proof. intros H. destruct c; [apply H | reflexivity]. Qed.

(** The colours [applyBorderToSection] leaves on a section. *)
Lemma applyBorder_colours (s : ViewStyle) (bg bc : option ColorValue)
    (w r : number) (b : Borders) :
  backgroundColor (applyBorderToSection s bg bc w r b)
  = (if JS.truthyStr bg then bg else backgroundColor s)
  /\ borderColor (applyBorderToSection s bg bc w r b)
     = (if JS.truthyStr bc then bc else borderColor s).
Proof.
  rewrite applyBorderToSection_chain.
  split.
  - do 9 (rewrite applyWhen_keeps by reflexivity).
    destruct (JS.truthyStr bg); reflexivity.
  - do 8 (rewrite applyWhen_keeps by reflexivity).
    destruct (JS.truthyStr bc); [reflexivity|]. cbn [applyWhen].
    rewrite applyWhen_keeps by reflexivity. reflexivity.
Qed.

(** Mirroring the borders asked for mirrors the section obtained. *)
Lemma mirror_applyBorder (s : ViewStyle) (bg bc : option ColorValue)
    (w r : number) (b : Borders) :
  mirrorStyle (applyBorderToSection s bg bc w r b)
  = applyBorderToSection (mirrorStyle s) bg bc w r (mirrorBorders b).
Proof.
  rewrite !applyBorderToSection_chain.
  destruct b as [t bo l ri tl bl tr br_]; cbn [mirrorBorders top bottom left
    right topLeft bottomLeft topRight bottomRight].
  rewrite (mirror_applyWhen br_ _ (set_borderBottomLeftRadius r)) by reflexivity.
  rewrite (mirror_applyWhen tr _ (set_borderTopLeftRadius r)) by reflexivity.
  rewrite (mirror_applyWhen bl _ (set_borderBottomRightRadius r)) by reflexivity.
  rewrite (mirror_applyWhen tl _ (set_borderTopRightRadius r)) by reflexivity.
  rewrite (mirror_applyWhen ri _ (set_borderLeftWidth w)) by reflexivity.
  rewrite (mirror_applyWhen l _ (set_borderRightWidth w)) by reflexivity.
  rewrite (mirror_applyWhen bo _ (set_borderBottomWidth w)) by reflexivity.
  rewrite (mirror_applyWhen t _ (set_borderTopWidth w)) by reflexivity.
  rewrite (mirror_applyWhen _ _ (set_borderColor bc)) by reflexivity.
  rewrite (mirror_applyWhen _ _ (set_backgroundColor bg)) by reflexivity.
  generalize (applyWhen bo (set_borderBottomWidth w)
                (applyWhen t (set_borderTopWidth w)
                   (applyWhen (JS.truthyStr bc) (set_borderColor bc)
                      (applyWhen (JS.truthyStr bg) (set_backgroundColor bg)
                         (mirrorStyle s))))).
  intros x. destruct l, ri, tl, bl, tr, br_; reflexivity.
Qed.

(** ** Starting, ending and inner days *)

Lemma applyBorder_topBottom (bg bc : option ColorValue) (w r : number) :
  TopBottom w (applyBorderToSection transparentFiller bg bc w r topBottom)
  /\ OpenLeft (applyBorderToSection transparentFiller bg bc w r topBottom)
  /\ OpenRight (applyBorderToSection transparentFiller bg bc w r topBottom).
Proof. split_colours bg bc. Qed.

(** The period styles [markingStyle] builds from the two flags. *)
Lemma markingStyle_periods (style : Sheet.StyleSheet)
    (m : Marking.MarkingProps) :
  MarkingStyle.startingDay (markingStyle style (Some m))
  = (if JS.truthyBool (Marking.startingDay m)
     then Some (periodEdgeStyle m) else None)
  /\ MarkingStyle.endingDay (markingStyle style (Some m))
     = (if JS.truthyBool (Marking.endingDay m)
        then Some (periodEdgeStyle m) else None)
  /\ MarkingStyle.day (markingStyle style (Some m))
     = (if negb (JS.truthyBool (Marking.startingDay m))
           && negb (JS.truthyBool (Marking.endingDay m))
        then Some (periodDayStyle m) else None)
  /\ MarkingStyle.containerStyle (markingStyle style (Some m))
     = Some (match Marking.customContainerStyle m with
             | Some c => c
             | None => emptyView
             end).
Proof.
  unfold markingStyle; simpl.
  destruct (Marking.customContainerStyle m); auto.
Qed.

(** The three single-section shapes, as [threeSectionFillerStyles] returns
    them. *)
Lemma threeSectionFillerStyles_single (style : Sheet.StyleSheet)
    (m : Marking.MarkingProps) :
  JS.truthyBool (Marking.isMultiPeriod m) = false ->
  threeSectionFillerStyles style (Some m)
  = match JS.truthyBool (Marking.startingDay m),
          JS.truthyBool (Marking.endingDay m) with
    | true, false =>
        mkThreeSectionFillerStyles
          (applyBorderToSection transparentFiller (Marking.color m)
             (JS.orStr (Marking.borderColor m) (Marking.color m))
             (fillerBorderWidth m) (fillerBorderRadius m) leftClosed)
          transparentFiller
          (applyBorderToSection transparentFiller (Marking.color m)
             (JS.orStr (Marking.borderColor m) (Marking.color m))
             (fillerBorderWidth m) (fillerBorderRadius m) topBottom)
          emptyView
    | false, true =>
        mkThreeSectionFillerStyles
          (applyBorderToSection transparentFiller (Marking.color m)
             (JS.orStr (Marking.borderColor m) (Marking.color m))
             (fillerBorderWidth m) (fillerBorderRadius m) topBottom)
          transparentFiller
          (applyBorderToSection transparentFiller (Marking.color m)
             (JS.orStr (Marking.borderColor m) (Marking.color m))
             (fillerBorderWidth m) (fillerBorderRadius m) rightClosed)
          emptyView
    | true, true =>
        mkThreeSectionFillerStyles transparentFiller transparentFiller
          transparentFiller
          (singleDayFiller (periodEdgeStyle m) (periodEdgeStyle m)
             (fillerBorderWidth m) (fillerBorderRadius m))
    | false, false =>
        mkThreeSectionFillerStyles transparentFiller transparentFiller
          transparentFiller
          (middleDayFiller (periodDayStyle m) (fillerBorderWidth m))
    end.
Proof.
  intros Hm.
  destruct (markingStyle_periods style m) as (Hs & He & Hd & _).
  unfold threeSectionFillerStyles, handleSinglePeriod.
  rewrite Hm, Hs, He, Hd.
  destruct (JS.truthyBool (Marking.startingDay m)),
    (JS.truthyBool (Marking.endingDay m)); reflexivity.
Qed.

(** X1: a starting day (single-section mode, [startingDay] set,
    [endingDay] not): the left filler closes only its left edge, the right
    filler has its top and bottom borders and no side border or corner
    radius; both show the marking colour when there is one, else stay
    transparent, and take [borderColor || color] as border colour; the
    middle filler and the wrapper style are untouched. *)
Theorem starting_day_shape (style : Sheet.StyleSheet)
    (m : Marking.MarkingProps) :
  JS.truthyBool (Marking.isMultiPeriod m) = false ->
  JS.truthyBool (Marking.startingDay m) = true ->
  JS.truthyBool (Marking.endingDay m) = false ->
  LeftEdgeOnly (fillerBorderWidth m) (fillerBorderRadius m)
    (leftFillerStyle (threeSectionFillerStyles style (Some m)))
  /\ (TopBottom (fillerBorderWidth m)
        (rightFillerStyle (threeSectionFillerStyles style (Some m)))
      /\ OpenLeft (rightFillerStyle (threeSectionFillerStyles style (Some m)))
      /\ OpenRight (rightFillerStyle (threeSectionFillerStyles style (Some m))))
  /\ (backgroundColor (leftFillerStyle (threeSectionFillerStyles style (Some m)))
      = sectionBackground (Marking.color m)
      /\ backgroundColor (rightFillerStyle (threeSectionFillerStyles style (Some m)))
         = sectionBackground (Marking.color m))
  /\ (borderColor (leftFillerStyle (threeSectionFillerStyles style (Some m)))
      = sectionBorderColor true
          (JS.orStr (Marking.borderColor m) (Marking.color m))
      /\ borderColor (rightFillerStyle (threeSectionFillerStyles style (Some m)))
         = sectionBorderColor true
             (JS.orStr (Marking.borderColor m) (Marking.color m)))
  /\ middleFillerStyle (threeSectionFillerStyles style (Some m)) = transparentFiller
  /\ fillerStyle (threeSectionFillerStyles style (Some m)) = emptyView.
Proof.
  intros Hm Hs He.
  rewrite (threeSectionFillerStyles_single style m Hm), Hs, He.
  cbn [leftFillerStyle rightFillerStyle middleFillerStyle fillerStyle].
  split; [apply applyBorder_leftClosed|].
  split; [apply applyBorder_topBottom|].
  unfold sectionBackground, sectionBorderColor.
  split; [split; apply applyBorder_colours|].
  split; [split; apply applyBorder_colours|].
  split; reflexivity.
Qed.

Lemma starting_day_shape_witness :
  LeftEdgeOnly 0.7%float 9%float
    (leftFillerStyle (threeSectionFillerStyles plainSheet (Some startingDayMarking)))
  /\ OpenRight
       (rightFillerStyle (threeSectionFillerStyles plainSheet (Some startingDayMarking))).
Proof.
  destruct (starting_day_shape plainSheet startingDayMarking
              eq_refl eq_refl eq_refl) as (Hl & (_ & _ & Hr) & _).
  split; [exact Hl | exact Hr].
Defined.

(** X2: an ending day (single-section mode, [endingDay] set, [startingDay]
    not) is the mirror image: the right filler closes only its right edge,
    the left filler has its top and bottom borders only, with the same
    colours as for a starting day. *)
Theorem ending_day_shape (style : Sheet.StyleSheet)
    (m : Marking.MarkingProps) :
  JS.truthyBool (Marking.isMultiPeriod m) = false ->
  JS.truthyBool (Marking.startingDay m) = false ->
  JS.truthyBool (Marking.endingDay m) = true ->
  RightEdgeOnly (fillerBorderWidth m) (fillerBorderRadius m)
    (rightFillerStyle (threeSectionFillerStyles style (Some m)))
  /\ (TopBottom (fillerBorderWidth m)
        (leftFillerStyle (threeSectionFillerStyles style (Some m)))
      /\ OpenLeft (leftFillerStyle (threeSectionFillerStyles style (Some m)))
      /\ OpenRight (leftFillerStyle (threeSectionFillerStyles style (Some m))))
  /\ (backgroundColor (leftFillerStyle (threeSectionFillerStyles style (Some m)))
      = sectionBackground (Marking.color m)
      /\ backgroundColor (rightFillerStyle (threeSectionFillerStyles style (Some m)))
         = sectionBackground (Marking.color m))
  /\ (borderColor (leftFillerStyle (threeSectionFillerStyles style (Some m)))
      = sectionBorderColor true
          (JS.orStr (Marking.borderColor m) (Marking.color m))
      /\ borderColor (rightFillerStyle (threeSectionFillerStyles style (Some m)))
         = sectionBorderColor true
             (JS.orStr (Marking.borderColor m) (Marking.color m)))
  /\ middleFillerStyle (threeSectionFillerStyles style (Some m)) = transparentFiller
  /\ fillerStyle (threeSectionFillerStyles style (Some m)) = emptyView.
Proof.
  intros Hm Hs He.
  rewrite (threeSectionFillerStyles_single style m Hm), Hs, He.
  cbn [leftFillerStyle rightFillerStyle middleFillerStyle fillerStyle].
  split; [apply applyBorder_rightClosed|].
  split; [apply applyBorder_topBottom|].
  unfold sectionBackground, sectionBorderColor.
  split; [split; apply applyBorder_colours|].
  split; [split; apply applyBorder_colours|].
  split; reflexivity.
Qed.

Lemma ending_day_shape_witness :
  RightEdgeOnly 0.7%float 9%float
    (rightFillerStyle (threeSectionFillerStyles plainSheet (Some endingDayMarking)))
  /\ OpenLeft
       (leftFillerStyle (threeSectionFillerStyles plainSheet (Some endingDayMarking))).
Proof.
  destruct (ending_day_shape plainSheet endingDayMarking
              eq_refl eq_refl eq_refl) as (Hr & (_ & Hl & _) & _).
  split; [exact Hr | exact Hl].
Defined.

(** X3: a day inside a period (single-section mode, a marking with neither
    flag set): both fillers stay transparent; the wrapper style carries the
    top and bottom borders only, with the marking colour as background
    (absent if the marking has none) and [borderColor || color] as border
    colour; and no background entry is pushed on the container. *)
Theorem inner_day_shape (style : Sheet.StyleSheet)
    (m : Marking.MarkingProps) (state : option DayState) :
  JS.truthyBool (Marking.isMultiPeriod m) = false ->
  JS.truthyBool (Marking.startingDay m) = false ->
  JS.truthyBool (Marking.endingDay m) = false ->
  (leftFillerStyle (threeSectionFillerStyles style (Some m)) = transparentFiller
   /\ rightFillerStyle (threeSectionFillerStyles style (Some m)) = transparentFiller)
  /\ (TopBottom (fillerBorderWidth m)
        (fillerStyle (threeSectionFillerStyles style (Some m)))
      /\ OpenLeft (fillerStyle (threeSectionFillerStyles style (Some m)))
      /\ OpenRight (fillerStyle (threeSectionFillerStyles style (Some m))))
  /\ (backgroundColor (fillerStyle (threeSectionFillerStyles style (Some m)))
      = Marking.color m
      /\ borderColor (fillerStyle (threeSectionFillerStyles style (Some m)))
         = JS.orStr (Marking.borderColor m) (Marking.color m))
  /\ containerStyle style (Some m) state
     = [Sheet.base style]
       ++ (if isToday (Some m) state then [Sheet.today style] else [])
       ++ [baseContainerStyle m;
           match Marking.customContainerStyle m with
           | Some c => c
           | None => emptyView
           end].
Proof.
  intros Hm Hs He.
  rewrite (threeSectionFillerStyles_single style m Hm), Hs, He.
  split; [split; reflexivity|].
  split; [repeat split|].
  split; [split; reflexivity|].
  destruct (markingStyle_periods style m) as (Hs' & He' & _ & Hc).
  unfold containerStyle, containerStyleOf. rewrite Hm, Hs', He', Hc, Hs, He.
  destruct (isToday (Some m) state); reflexivity.
Qed.

Lemma inner_day_shape_witness :
  backgroundColor
    (fillerStyle (threeSectionFillerStyles plainSheet (Some middleDayMarking)))
  = Some "#FF0000"
  /\ resolvedBackground
       (containerStyle plainSheet (Some middleDayMarking) (Some StateNone))
     = None.
Proof.
  destruct (inner_day_shape plainSheet middleDayMarking (Some StateNone)
              eq_refl eq_refl eq_refl) as (_ & _ & (Hbg & _) & Hc).
  split; [exact Hbg|]. rewrite Hc. reflexivity.
Defined.

(** X4: a marked day in single-section mode always gets its top and bottom
    borders.  When exactly one of [startingDay] and [endingDay] is set (a
    starting or an ending day) they are on both fillers and the wrapper
    style stays empty; when both or neither is set (a single-day period or
    an inner day) they are on the wrapper style and both fillers stay
    transparent. *)
Theorem single_section_top_bottom (style : Sheet.StyleSheet)
    (m : Marking.MarkingProps) :
  JS.truthyBool (Marking.isMultiPeriod m) = false ->
  (JS.truthyBool (Marking.startingDay m) <> JS.truthyBool (Marking.endingDay m) ->
   TopBottom (fillerBorderWidth m)
     (leftFillerStyle (threeSectionFillerStyles style (Some m)))
   /\ TopBottom (fillerBorderWidth m)
        (rightFillerStyle (threeSectionFillerStyles style (Some m)))
   /\ fillerStyle (threeSectionFillerStyles style (Some m)) = emptyView)
  /\ (JS.truthyBool (Marking.startingDay m) = JS.truthyBool (Marking.endingDay m) ->
      leftFillerStyle (threeSectionFillerStyles style (Some m)) = transparentFiller
      /\ rightFillerStyle (threeSectionFillerStyles style (Some m)) = transparentFiller
      /\ TopBottom (fillerBorderWidth m)
           (fillerStyle (threeSectionFillerStyles style (Some m)))).
Proof.
  intros Hm.
  rewrite (threeSectionFillerStyles_single style m Hm).
  destruct (JS.truthyBool (Marking.startingDay m)),
    (JS.truthyBool (Marking.endingDay m));
    cbn [leftFillerStyle rightFillerStyle middleFillerStyle fillerStyle];
    (split; intros Hflags; [try (exfalso; apply Hflags; reflexivity)
                           | try discriminate Hflags]).
  - repeat split.
  - split; [exact (proj1 (applyBorder_leftClosed _ _ _ _))|].
    split; [exact (proj1 (applyBorder_topBottom _ _ _ _))|reflexivity].
  - split; [exact (proj1 (applyBorder_topBottom _ _ _ _))|].
    split; [exact (proj1 (applyBorder_rightClosed _ _ _ _))|reflexivity].
  - repeat split.
Qed.

Lemma single_section_top_bottom_witness :
  (TopBottom (fillerBorderWidth startingDayMarking)
     (leftFillerStyle (threeSectionFillerStyles plainSheet (Some startingDayMarking)))
   /\ TopBottom (fillerBorderWidth startingDayMarking)
        (rightFillerStyle (threeSectionFillerStyles plainSheet (Some startingDayMarking)))
   /\ fillerStyle (threeSectionFillerStyles plainSheet (Some startingDayMarking))
      = emptyView)
  /\ (leftFillerStyle (threeSectionFillerStyles plainSheet (Some middleDayMarking))
      = transparentFiller
      /\ rightFillerStyle (threeSectionFillerStyles plainSheet (Some middleDayMarking))
         = transparentFiller
      /\ TopBottom (fillerBorderWidth middleDayMarking)
           (fillerStyle (threeSectionFillerStyles plainSheet (Some middleDayMarking)))).
Proof.
  split.
  - apply (proj1 (single_section_top_bottom plainSheet startingDayMarking
                    eq_refl)).
    cbv. discriminate.
  - apply (proj2 (single_section_top_bottom plainSheet middleDayMarking
                    eq_refl)).
    reflexivity.
Defined.

(** ** More on the multi-section layouts *)

(** X5: in the two-section layout (left and right colours present, no
    middle colour) each section follows its own single-day flag: closed on
    all four sides when the flag is set; otherwise the left section closes
    only its right edge and the right section only its left edge.  The
    middle filler and the wrapper style are untouched. *)
Theorem two_section_single_day_flags (style : Sheet.StyleSheet)
    (m : Marking.MarkingProps) :
  JS.truthyBool (Marking.isMultiPeriod m) = true ->
  hasLeft m = true -> hasRight m = true -> hasMiddle m = false ->
  (if JS.truthyBool (Marking.leftSectionIsSingleDay m)
   then FullyClosed (fillerBorderWidth m) (fillerBorderRadius m)
          (leftFillerStyle (threeSectionFillerStyles style (Some m)))
   else RightEdgeOnly (fillerBorderWidth m) (fillerBorderRadius m)
          (leftFillerStyle (threeSectionFillerStyles style (Some m))))
  /\ (if JS.truthyBool (Marking.rightSectionIsSingleDay m)
      then FullyClosed (fillerBorderWidth m) (fillerBorderRadius m)
             (rightFillerStyle (threeSectionFillerStyles style (Some m)))
      else LeftEdgeOnly (fillerBorderWidth m) (fillerBorderRadius m)
             (rightFillerStyle (threeSectionFillerStyles style (Some m))))
  /\ middleFillerStyle (threeSectionFillerStyles style (Some m)) = transparentFiller
  /\ fillerStyle (threeSectionFillerStyles style (Some m)) = emptyView.
Proof.
  unfold hasLeft, hasRight, hasMiddle.
  intros Hm Hl Hr Hc.
  unfold threeSectionFillerStyles, handleTwoSectionMultiPeriod.
  rewrite Hm, Hl, Hr, Hc.
  cbn [andb negb leftFillerStyle rightFillerStyle middleFillerStyle fillerStyle].
  destruct (JS.truthyBool (Marking.leftSectionIsSingleDay m)),
    (JS.truthyBool (Marking.rightSectionIsSingleDay m));
    (split; [|split; [|split; reflexivity]]);
    match goal with
    | |- FullyClosed _ _ _ => apply applyBorder_allClosed
    | |- RightEdgeOnly _ _ _ => apply applyBorder_rightClosed
    | |- LeftEdgeOnly _ _ _ => apply applyBorder_leftClosed
    end.
Qed.

Lemma two_section_single_day_flags_witness :
  RightEdgeOnly (fillerBorderWidth leftRightMarking)
    (fillerBorderRadius leftRightMarking)
    (leftFillerStyle (threeSectionFillerStyles plainSheet (Some leftRightMarking)))
  /\ fillerStyle (threeSectionFillerStyles plainSheet (Some leftRightMarking))
     = emptyView.
Proof.
  destruct (two_section_single_day_flags plainSheet leftRightMarking
              eq_refl eq_refl eq_refl eq_refl) as (Hl & _ & _ & Hf).
  split; [exact Hl | exact Hf].
Defined.

(** The three fillers of the multi-section mode, whatever the layout. *)
Lemma multi_period_colours_of (bg bc : option ColorValue) (w r : number)
    (b : Borders) :
  JS.truthyStr bg = true ->
  backgroundColor (applyBorderToSection transparentFiller bg bc w r b)
  = sectionBackground bg
  /\ borderColor (applyBorderToSection transparentFiller bg bc w r b)
     = sectionBorderColor true bc.
Proof.
  intros Hbg.
  destruct (applyBorder_colours transparentFiller bg bc w r b) as (-> & ->).
  unfold sectionBackground, sectionBorderColor. rewrite Hbg. split; reflexivity.
Qed.

(** X6: in multi-section mode, whatever the layout, each of the three
    fillers shows the colour of its section when that colour is present and
    stays ['transparent'] otherwise; it takes the section's border colour
    when the section is present and that border colour is, and has no border
    colour otherwise. *)
Theorem multi_period_filler_colours (style : Sheet.StyleSheet)
    (m : Marking.MarkingProps) :
  JS.truthyBool (Marking.isMultiPeriod m) = true ->
  (backgroundColor (leftFillerStyle (threeSectionFillerStyles style (Some m)))
   = sectionBackground (Marking.leftSectionColor m)
   /\ borderColor (leftFillerStyle (threeSectionFillerStyles style (Some m)))
      = sectionBorderColor (hasLeft m) (Marking.leftSectionBorderColor m))
  /\ (backgroundColor (middleFillerStyle (threeSectionFillerStyles style (Some m)))
      = sectionBackground (Marking.middleSectionColor m)
      /\ borderColor (middleFillerStyle (threeSectionFillerStyles style (Some m)))
         = sectionBorderColor (hasMiddle m) (Marking.middleSectionBorderColor m))
  /\ (backgroundColor (rightFillerStyle (threeSectionFillerStyles style (Some m)))
      = sectionBackground (Marking.rightSectionColor m)
      /\ borderColor (rightFillerStyle (threeSectionFillerStyles style (Some m)))
         = sectionBorderColor (hasRight m) (Marking.rightSectionBorderColor m)).
Proof.
  intros Hm.
  unfold threeSectionFillerStyles, handleTwoSectionMultiPeriod,
    handleThreeSectionMultiPeriod, handleFallbackMultiPeriod,
    applyFullyClosedBorder, hasLeft, hasMiddle, hasRight.
  rewrite Hm.
  destruct (JS.truthyStr (Marking.leftSectionColor m)) eqn:Hl,
    (JS.truthyStr (Marking.middleSectionColor m)) eqn:Hc,
    (JS.truthyStr (Marking.rightSectionColor m)) eqn:Hr;
    cbn [andb negb leftFillerStyle rightFillerStyle middleFillerStyle
         fillerStyle];
    repeat match goal with
           | |- context [if ?c then applyBorderToSection _ _ _ _ _ _ else _] =>
               destruct c
           end;
    repeat match goal with
           | |- (_ /\ _) /\ _ => split
           | |- backgroundColor (applyBorderToSection _ _ _ _ _ _) = _ /\ _ =>
               apply multi_period_colours_of; assumption
           | |- backgroundColor transparentFiller = _ /\ _ =>
               unfold sectionBackground, sectionBorderColor;
               rewrite ?Hl, ?Hc, ?Hr; split; reflexivity
           end.
Qed.

Lemma multi_period_filler_colours_witness :
  backgroundColor
    (leftFillerStyle (threeSectionFillerStyles plainSheet (Some leftMiddleMarking)))
  = Some "#AA0000"
  /\ backgroundColor
       (rightFillerStyle (threeSectionFillerStyles plainSheet (Some leftMiddleMarking)))
     = Some "transparent".
Proof.
  destruct (multi_period_filler_colours plainSheet leftMiddleMarking eq_refl)
    as ((Hl & _) & _ & (Hr & _)).
  split; [exact Hl | exact Hr].
Defined.

Lemma applyBorder_keeps_background (s : ViewStyle) (bg bc : option ColorValue)
    (w r : number) (b : Borders) :
  JS.truthyStr (backgroundColor s) = true ->
  JS.truthyStr (backgroundColor (applyBorderToSection s bg bc w r b)) = true.
Proof.
  intros Hs.
  destruct (applyBorder_colours s bg bc w r b) as (-> & _).
  destruct (JS.truthyStr bg) eqn:Hbg; assumption.
Qed.

Ltac filler_has_background :=
  match goal with
  | |- JS.truthyStr (backgroundColor (applyFullyClosedBorder _ _ _ _ _)) = true =>
      unfold applyFullyClosedBorder; filler_has_background
  | |- JS.truthyStr (backgroundColor (applyBorderToSection _ _ _ _ _ _)) = true =>
      apply applyBorder_keeps_background; reflexivity
  | |- JS.truthyStr (backgroundColor transparentFiller) = true => reflexivity
  end.

(** X7: with or without a marking, in every mode, the left, middle and
    right filler styles always carry a non-empty [backgroundColor]: the
    initial ['transparent'] is only ever replaced by a truthy colour. *)
Theorem fillers_always_have_background (style : Sheet.StyleSheet)
    (marking : option Marking.MarkingProps) :
  JS.truthyStr (backgroundColor
                  (leftFillerStyle (threeSectionFillerStyles style marking)))
  = true
  /\ JS.truthyStr (backgroundColor
                     (middleFillerStyle (threeSectionFillerStyles style marking)))
     = true
  /\ JS.truthyStr (backgroundColor
                     (rightFillerStyle (threeSectionFillerStyles style marking)))
     = true.
Proof.
  destruct marking as [m|]; [|repeat split].
  unfold threeSectionFillerStyles, handleTwoSectionMultiPeriod,
    handleThreeSectionMultiPeriod, handleFallbackMultiPeriod,
    handleSinglePeriod.
  destruct (JS.truthyBool (Marking.isMultiPeriod m)).
  - destruct (JS.truthyStr (Marking.leftSectionColor m)),
      (JS.truthyStr (Marking.middleSectionColor m)),
      (JS.truthyStr (Marking.rightSectionColor m));
      cbn -[applyBorderToSection applyFullyClosedBorder fillerBorderWidth
            fillerBorderRadius transparentFiller emptyView JS.truthyStr];
      repeat match goal with
             | |- _ /\ _ => split
             | |- context [if ?c then _ else _] => destruct c
             end;
      filler_has_background.
  - destruct (MarkingStyle.startingDay (markingStyle style (Some m))),
      (MarkingStyle.endingDay (markingStyle style (Some m))),
      (MarkingStyle.day (markingStyle style (Some m)));
      cbn -[applyBorderToSection applyFullyClosedBorder fillerBorderWidth
            fillerBorderRadius transparentFiller emptyView JS.truthyStr
            singleDayFiller middleDayFiller];
      repeat split; filler_has_background.
Qed.

(** X8: in multi-section mode the fillers depend only on the section
    colours, the section border colours, the two single-day flags and the
    width and radius: two markings that agree on these get the same filler
    styles, whatever their [startingDay], [endingDay], [color] and
    [borderColor], and the wrapper style is always empty. *)
Theorem multi_period_ignores_period_fields (style style' : Sheet.StyleSheet)
    (a b : Marking.MarkingProps) :
  JS.truthyBool (Marking.isMultiPeriod a) = true ->
  JS.truthyBool (Marking.isMultiPeriod b) = true ->
  sameSections a b ->
  threeSectionFillerStyles style (Some a)
  = threeSectionFillerStyles style' (Some b)
  /\ fillerStyle (threeSectionFillerStyles style (Some a)) = emptyView.
Proof.
  intros Ha Hb (H1 & H2 & H3 & H4 & H5 & H6 & H7 & H8 & H9 & H10).
  unfold threeSectionFillerStyles, handleTwoSectionMultiPeriod,
    handleThreeSectionMultiPeriod, handleFallbackMultiPeriod,
    fillerBorderWidth, fillerBorderRadius.
  rewrite Ha, Hb, H1, H2, H3, H4, H5, H6, H7, H8, H9, H10.
  split; [reflexivity|].
  destruct (JS.truthyStr (Marking.leftSectionColor b)),
    (JS.truthyStr (Marking.middleSectionColor b)),
    (JS.truthyStr (Marking.rightSectionColor b)); reflexivity.
Qed.

Lemma multi_period_ignores_period_fields_witness :
  threeSectionFillerStyles plainSheet (Some multiPeriodMarking)
  = threeSectionFillerStyles plainSheet (Some customContainerMarking)
  /\ fillerStyle (threeSectionFillerStyles plainSheet (Some multiPeriodMarking))
     = emptyView.
Proof.
  apply (multi_period_ignores_period_fields plainSheet plainSheet
           multiPeriodMarking customContainerMarking);
    [reflexivity | reflexivity | repeat split].
Defined.

(** ** Symmetry *)

(** X9: the filler derivation is mirror-symmetric.  Exchanging
    [startingDay] with [endingDay] and the left section fields with the
    right ones exchanges the left and right filler styles and mirrors every
    style (left and right edges and corners exchanged), in single-section
    and in multi-section mode alike. *)
Theorem fillers_mirror_symmetric (style : Sheet.StyleSheet)
    (m : Marking.MarkingProps) :
  threeSectionFillerStyles style (Some (mirrorMarking m))
  = mirrorFillers (threeSectionFillerStyles style (Some m)).
Proof.
  destruct (JS.truthyBool (Marking.isMultiPeriod m)) eqn:Hm.
  - unfold threeSectionFillerStyles, handleTwoSectionMultiPeriod,
      handleThreeSectionMultiPeriod, handleFallbackMultiPeriod,
      applyFullyClosedBorder, mirrorFillers.
    cbn [mirrorMarking Marking.isMultiPeriod Marking.leftSectionColor
         Marking.middleSectionColor Marking.rightSectionColor
         Marking.leftSectionBorderColor Marking.middleSectionBorderColor
         Marking.rightSectionBorderColor Marking.leftSectionIsSingleDay
         Marking.rightSectionIsSingleDay].
    rewrite Hm.
    change (fillerBorderWidth (mirrorMarking m)) with (fillerBorderWidth m).
    change (fillerBorderRadius (mirrorMarking m)) with (fillerBorderRadius m).
    destruct (JS.truthyStr (Marking.leftSectionColor m)),
      (JS.truthyStr (Marking.middleSectionColor m)),
      (JS.truthyStr (Marking.rightSectionColor m));
      cbn [andb negb leftFillerStyle rightFillerStyle middleFillerStyle
           fillerStyle];
      try (destruct (JS.truthyBool (Marking.leftSectionIsSingleDay m)),
             (JS.truthyBool (Marking.rightSectionIsSingleDay m)));
      rewrite ?mirror_applyBorder; reflexivity.
  - rewrite (threeSectionFillerStyles_single style m Hm).
    rewrite (threeSectionFillerStyles_single style (mirrorMarking m) Hm).
    cbn [mirrorMarking Marking.startingDay Marking.endingDay Marking.color
         Marking.borderColor].
    change (fillerBorderWidth (mirrorMarking m)) with (fillerBorderWidth m).
    change (fillerBorderRadius (mirrorMarking m)) with (fillerBorderRadius m).
    change (periodEdgeStyle (mirrorMarking m)) with (periodEdgeStyle m).
    change (periodDayStyle (mirrorMarking m)) with (periodDayStyle m).
    unfold mirrorFillers.
    destruct (JS.truthyBool (Marking.startingDay m)),
      (JS.truthyBool (Marking.endingDay m));
      cbn [leftFillerStyle rightFillerStyle middleFillerStyle fillerStyle];
      rewrite ?mirror_applyBorder; reflexivity.
Qed.

(** ** One width, one radius *)

Lemma BordersFrom_colours (w r : number) (s : ViewStyle)
    (bg bc : option ColorValue) :
  BordersFrom w r s ->
  BordersFrom w r (set_backgroundColor bg s)
  /\ BordersFrom w r (set_borderColor bc s).
Proof. intros Hs. split; exact Hs. Qed.

Ltac borders_from Hs :=
  destruct Hs as (H1 & H2 & H3 & H4 & H5 & H6 & H7 & H8 & H9 & H10);
  repeat split; solve [assumption | right; reflexivity].

Lemma BordersFrom_widths (w r : number) (s : ViewStyle) :
  BordersFrom w r s ->
  BordersFrom w r (set_borderTopWidth w s)
  /\ BordersFrom w r (set_borderBottomWidth w s)
  /\ BordersFrom w r (set_borderLeftWidth w s)
  /\ BordersFrom w r (set_borderRightWidth w s).
Proof. intros Hs. unfold BordersFrom in *. borders_from Hs. Qed.

Lemma BordersFrom_radii (w r : number) (s : ViewStyle) :
  BordersFrom w r s ->
  BordersFrom w r (set_borderTopLeftRadius r s)
  /\ BordersFrom w r (set_borderBottomLeftRadius r s)
  /\ BordersFrom w r (set_borderTopRightRadius r s)
  /\ BordersFrom w r (set_borderBottomRightRadius r s).
Proof. intros Hs. unfold BordersFrom in *. borders_from Hs. Qed.

Lemma BordersFrom_plain (w r : number) :
  BordersFrom w r transparentFiller /\ BordersFrom w r emptyView.
Proof. split; repeat split; left; reflexivity. Qed.

Lemma applyBorder_BordersFrom (s : ViewStyle) (bg bc : option ColorValue)
    (w r : number) (b : Borders) :
  BordersFrom w r s -> BordersFrom w r (applyBorderToSection s bg bc w r b).
Proof.
  intros Hs. rewrite applyBorderToSection_chain.
  repeat (apply applyWhen_preserves;
          [ intros x Hx;
            first [ apply (BordersFrom_widths w r x Hx)
                  | apply (BordersFrom_radii w r x Hx)
                  | apply (BordersFrom_colours w r x bg bc Hx) ] | ]).
  exact Hs.
Qed.

Ltac filler_borders_from :=
  match goal with
  | |- BordersFrom _ _ (applyFullyClosedBorder _ _ _ _ _) =>
      unfold applyFullyClosedBorder; filler_borders_from
  | |- BordersFrom _ _ (applyBorderToSection _ _ _ _ _ _) =>
      apply applyBorder_BordersFrom; apply BordersFrom_plain
  | |- BordersFrom _ _ (singleDayFiller _ _ _ _) =>
      repeat split; solve [reflexivity | right; reflexivity]
  | |- BordersFrom _ _ (middleDayFiller _ _) =>
      repeat split; solve [reflexivity | left; reflexivity | right; reflexivity]
  | |- BordersFrom _ _ transparentFiller => apply BordersFrom_plain
  | |- BordersFrom _ _ emptyView => apply BordersFrom_plain
  end.

(** X10: every edge width that appears in any of the four resolved filler
    styles is the one width [marking.borderWith || 0.7], every corner radius
    the one radius [marking.borderRadius || 9]; the shorthand [borderWidth]
    and [borderRadius] properties are never set on a filler. *)
Theorem fillers_one_width_one_radius (style : Sheet.StyleSheet)
    (m : Marking.MarkingProps) :
  BordersFrom (fillerBorderWidth m) (fillerBorderRadius m)
    (leftFillerStyle (threeSectionFillerStyles style (Some m)))
  /\ BordersFrom (fillerBorderWidth m) (fillerBorderRadius m)
       (middleFillerStyle (threeSectionFillerStyles style (Some m)))
  /\ BordersFrom (fillerBorderWidth m) (fillerBorderRadius m)
       (rightFillerStyle (threeSectionFillerStyles style (Some m)))
  /\ BordersFrom (fillerBorderWidth m) (fillerBorderRadius m)
       (fillerStyle (threeSectionFillerStyles style (Some m))).
Proof.
  unfold threeSectionFillerStyles, handleTwoSectionMultiPeriod,
    handleThreeSectionMultiPeriod, handleFallbackMultiPeriod,
    handleSinglePeriod.
  destruct (JS.truthyBool (Marking.isMultiPeriod m)).
  - destruct (JS.truthyStr (Marking.leftSectionColor m)),
      (JS.truthyStr (Marking.middleSectionColor m)),
      (JS.truthyStr (Marking.rightSectionColor m));
      cbn -[applyBorderToSection applyFullyClosedBorder fillerBorderWidth
            fillerBorderRadius transparentFiller emptyView BordersFrom];
      repeat match goal with
             | |- _ /\ _ => split
             | |- context [if ?c then _ else _] => destruct c
             end;
      filler_borders_from.
  - destruct (MarkingStyle.startingDay (markingStyle style (Some m))),
      (MarkingStyle.endingDay (markingStyle style (Some m))),
      (MarkingStyle.day (markingStyle style (Some m)));
      cbn -[applyBorderToSection applyFullyClosedBorder fillerBorderWidth
            fillerBorderRadius transparentFiller emptyView BordersFrom
            singleDayFiller middleDayFiller];
      repeat match goal with
             | |- BordersFrom _ _ _ /\ _ => split
             end;
      filler_borders_from.
Qed.

(** ** What is rendered *)

(** X11: what [renderFillers] renders, and that it drops nothing that was
    computed.  Without a marking nothing is rendered.  With a marking the
    left filler comes first and the right filler last, each with its
    resolved style after the sheet's.  The middle filler (on
    [middleFiller || leftFiller]) is rendered between them exactly in
    multi-section mode outside the two-section layout; whenever it is left
    out, in single-section mode and in the two-section layout, its resolved
    style is the untouched transparent one.  The wrapper style is put on
    the wrapping view exactly in single-section mode; in multi-section mode
    it is empty. *)
Theorem renderFillers_complete (style : Sheet.StyleSheet)
    (sheet : FillerSheet.FillerSheet) (m : Marking.MarkingProps) :
  renderFillers style sheet None = None
  /\ renderFillers style sheet (Some m)
     = Some
         (mkFillersView
            (if JS.truthyBool (Marking.isMultiPeriod m)
             then [FillerSheet.fillers sheet]
             else [FillerSheet.fillers sheet;
                   fillerStyle (threeSectionFillerStyles style (Some m))])
            ([[FillerSheet.leftFiller sheet;
               leftFillerStyle (threeSectionFillerStyles style (Some m))]]
             ++ (if JS.truthyBool (Marking.isMultiPeriod m)
                    && negb (hasLeft m && hasRight m && negb (hasMiddle m))
                 then [[match FillerSheet.middleFiller sheet with
                        | Some c => c
                        | None => FillerSheet.leftFiller sheet
                        end;
                        middleFillerStyle
                          (threeSectionFillerStyles style (Some m))]]
                 else [])
             ++ [[FillerSheet.rightFiller sheet;
                  rightFillerStyle (threeSectionFillerStyles style (Some m))]]))
  /\ (JS.truthyBool (Marking.isMultiPeriod m)
      && negb (hasLeft m && hasRight m && negb (hasMiddle m)) = false ->
      middleFillerStyle (threeSectionFillerStyles style (Some m))
      = transparentFiller)
  /\ (JS.truthyBool (Marking.isMultiPeriod m) = true ->
      fillerStyle (threeSectionFillerStyles style (Some m)) = emptyView).
Proof.
  split; [reflexivity|].
  unfold renderFillers, hasLeft, hasRight, hasMiddle.
  destruct (JS.truthyBool (Marking.isMultiPeriod m)) eqn:Hm.
  - destruct (JS.truthyStr (Marking.leftSectionColor m)
              && JS.truthyStr (Marking.rightSectionColor m)
              && negb (JS.truthyStr (Marking.middleSectionColor m))) eqn:Htwo;
      (split; [reflexivity|]);
      unfold threeSectionFillerStyles, handleTwoSectionMultiPeriod;
      rewrite Hm, Htwo.
    + split; intros _; reflexivity.
    + split; [intros Hno; discriminate Hno|]. intros _.
      destruct (JS.truthyStr (Marking.leftSectionColor m)
                && JS.truthyStr (Marking.middleSectionColor m)
                && JS.truthyStr (Marking.rightSectionColor m)); reflexivity.
  - split; [reflexivity|].
    split; [intros _ | intros Hno; discriminate Hno].
    rewrite (threeSectionFillerStyles_single style m Hm).
    destruct (JS.truthyBool (Marking.startingDay m)),
      (JS.truthyBool (Marking.endingDay m)); reflexivity.
Qed.

(** In the two-section layout the middle filler, left out, is the untouched
    one; in the fallback layout the wrapper style, not applied, is empty. *)
Lemma renderFillers_complete_witness :
  middleFillerStyle (threeSectionFillerStyles plainSheet (Some leftRightMarking))
  = transparentFiller
  /\ fillerStyle (threeSectionFillerStyles plainSheet (Some leftMiddleMarking))
     = emptyView.
Proof.
  split.
  - apply (proj1 (proj2 (proj2 (renderFillers_complete plainSheet
                                  plainFillerSheet leftRightMarking)))).
    reflexivity.
  - apply (proj2 (proj2 (proj2 (renderFillers_complete plainSheet
                                  plainFillerSheet leftMiddleMarking)))).
    reflexivity.
Defined.

(** ** Container background in single-section mode *)

(** X12: for a starting, an ending or a single-day marking in
    single-section mode the container gets exactly one background entry,
    [{backgroundColor: marking.color}], pushed between the base container
    style and the caller's custom container style; with a colour on the
    marking the container therefore resolves to that colour unless the
    custom style has a background of its own. *)
Theorem period_edge_container_background (style : Sheet.StyleSheet)
    (m : Marking.MarkingProps) (state : option DayState) (c : ColorValue) :
  JS.truthyBool (Marking.isMultiPeriod m) = false ->
  JS.truthyBool (Marking.startingDay m) || JS.truthyBool (Marking.endingDay m)
  = true ->
  Marking.color m = Some c ->
  containerStyle style (Some m) state
  = ([Sheet.base style]
     ++ (if isToday (Some m) state then [Sheet.today style] else [])
     ++ [baseContainerStyle m])
    ++ [backgroundOnly (Some c);
        match Marking.customContainerStyle m with
        | Some custom => custom
        | None => emptyView
        end]
  /\ resolvedBackground (containerStyle style (Some m) state)
     = match customBackground m with
       | Some own => Some own
       | None => Some c
       end.
Proof.
  intros Hm Hedge Hc.
  assert (Hshape :
    containerStyle style (Some m) state
    = ([Sheet.base style]
       ++ (if isToday (Some m) state then [Sheet.today style] else [])
       ++ [baseContainerStyle m])
      ++ [backgroundOnly (Some c);
          match Marking.customContainerStyle m with
          | Some custom => custom
          | None => emptyView
          end]).
  { destruct (markingStyle_periods style m) as (Hs & He & _ & Hcs).
    unfold containerStyle, containerStyleOf. rewrite Hm, Hs, He, Hcs.
    destruct (JS.truthyBool (Marking.startingDay m)),
      (JS.truthyBool (Marking.endingDay m)); try discriminate Hedge;
      cbn [periodEdgeStyle backgroundColor]; rewrite Hc;
      destruct (isToday (Some m) state); reflexivity. }
  split; [exact Hshape|].
  rewrite Hshape, resolvedBackground_last_two.
  unfold customBackground.
  destruct (Marking.customContainerStyle m); reflexivity.
Qed.

Lemma period_edge_container_background_witness :
  resolvedBackground
    (containerStyle plainSheet (Some endingDayMarking) (Some StateToday))
  = Some "#FF0000".
Proof.
  exact (proj2 (period_edge_container_background plainSheet endingDayMarking
                  (Some StateToday) "#FF0000" eq_refl eq_refl eq_refl)).
Defined.

(** ** The older variant *)

(** The period styles of the older [markingStyle]. *)
Lemma legacy_markingStyle_periods (style : Sheet.StyleSheet)
    (lm : Legacy.MarkingProps) :
  MarkingStyle.startingDay (Legacy.markingStyle style (Some lm))
  = (if JS.truthyBool (Marking.startingDay (Legacy.props lm))
     then Some (Legacy.periodStyle (Legacy.props lm)) else None)
  /\ MarkingStyle.endingDay (Legacy.markingStyle style (Some lm))
     = (if JS.truthyBool (Marking.endingDay (Legacy.props lm))
        then Some (Legacy.periodStyle (Legacy.props lm)) else None)
  /\ MarkingStyle.day (Legacy.markingStyle style (Some lm))
     = (if negb (JS.truthyBool (Marking.startingDay (Legacy.props lm)))
           && negb (JS.truthyBool (Marking.endingDay (Legacy.props lm)))
        then Some (Legacy.periodStyle (Legacy.props lm)) else None)
  /\ MarkingStyle.containerStyle (Legacy.markingStyle style (Some lm))
     = Some (match Marking.customContainerStyle (Legacy.props lm) with
             | Some c => c
             | None => emptyView
             end).
Proof.
  unfold Legacy.markingStyle; simpl.
  destruct (Marking.customContainerStyle (Legacy.props lm)); auto.
Qed.

(** X13: on a starting day and on an ending day the two variants of the
    component agree.  When the marking is not multi-period, exactly one of
    [startingDay] and [endingDay] is set, and [color], [borderColor],
    [borderWith] and [borderRadius] are all present, the older
    [fillerStyles] and the newer [threeSectionFillerStyles] return the same
    left filler, the same right filler and the same (empty) wrapper
    style. *)
Theorem legacy_agrees_on_period_edges (style : Sheet.StyleSheet)
    (lm : Legacy.MarkingProps) :
  JS.truthyBool (Marking.isMultiPeriod (Legacy.props lm)) = false ->
  JS.truthyBool (Marking.startingDay (Legacy.props lm))
  = negb (JS.truthyBool (Marking.endingDay (Legacy.props lm))) ->
  JS.truthyStr (Marking.color (Legacy.props lm)) = true ->
  JS.truthyStr (Marking.borderColor (Legacy.props lm)) = true ->
  JS.truthyNum (Marking.borderWith (Legacy.props lm)) = true ->
  JS.truthyNum (Marking.borderRadius (Legacy.props lm)) = true ->
  Legacy.leftFillerStyle (Legacy.fillerStyles style (Some lm))
  = leftFillerStyle (threeSectionFillerStyles style (Some (Legacy.props lm)))
  /\ Legacy.rightFillerStyle (Legacy.fillerStyles style (Some lm))
     = rightFillerStyle (threeSectionFillerStyles style (Some (Legacy.props lm)))
  /\ Legacy.fillerStyle (Legacy.fillerStyles style (Some lm))
     = fillerStyle (threeSectionFillerStyles style (Some (Legacy.props lm))).
Proof.
  intros Hm Hone Hcol Hbc Hw Hr.
  rewrite (threeSectionFillerStyles_single style (Legacy.props lm) Hm).
  destruct (legacy_markingStyle_periods style lm) as (Hs & He & Hd & _).
  unfold Legacy.fillerStyles.
  rewrite Hs, He, Hd.
  cbn [option_map optField].
  rewrite Hm, Hone.
  assert (Hwidth : Some (fillerBorderWidth (Legacy.props lm))
                   = Marking.borderWith (Legacy.props lm)).
  { unfold fillerBorderWidth, JS.orNum.
    destruct (Marking.borderWith (Legacy.props lm)); [|discriminate Hw].
    simpl in Hw. rewrite Hw. reflexivity. }
  assert (Hradius : Some (fillerBorderRadius (Legacy.props lm))
                    = Marking.borderRadius (Legacy.props lm)).
  { unfold fillerBorderRadius, JS.orNum.
    destruct (Marking.borderRadius (Legacy.props lm)); [|discriminate Hr].
    simpl in Hr. rewrite Hr. reflexivity. }
  rewrite <- Hwidth, <- Hradius.
  destruct (JS.truthyBool (Marking.endingDay (Legacy.props lm)));
    cbn [negb andb JS.truthyObj Legacy.backgroundOf Legacy.borderColorOf
         Legacy.periodStyle backgroundColor borderColor
         Legacy.leftFillerStyle Legacy.rightFillerStyle Legacy.fillerStyle
         leftFillerStyle rightFillerStyle fillerStyle];
    rewrite !applyBorderToSection_chain; unfold JS.orStr;
    rewrite Hbc, Hbc, Hcol; repeat split.
Qed.

Lemma legacy_agrees_on_period_edges_witness :
  Legacy.leftFillerStyle
    (Legacy.fillerStyles plainSheet
       (Some (Legacy.mkMarkingProps fullStartMarking None None None None)))
  = leftFillerStyle (threeSectionFillerStyles plainSheet (Some fullStartMarking))
  /\ Legacy.rightFillerStyle
       (Legacy.fillerStyles plainSheet
          (Some (Legacy.mkMarkingProps fullStartMarking None None None None)))
     = rightFillerStyle (threeSectionFillerStyles plainSheet (Some fullStartMarking))
  /\ Legacy.fillerStyle
       (Legacy.fillerStyles plainSheet
          (Some (Legacy.mkMarkingProps fullStartMarking None None None None)))
     = fillerStyle (threeSectionFillerStyles plainSheet (Some fullStartMarking)).
Proof.
  apply (legacy_agrees_on_period_edges plainSheet
           (Legacy.mkMarkingProps fullStartMarking None None None None));
    reflexivity.
Defined.

(** X14: the overlap layout of the older variant.  With [isMultiPeriod],
    [startingDay] and [endingDay] all set, the left filler shows the period
    that ends: background [endPeriodColor || color], border colour
    [endPeriodBorderColor || borderColor], only its right edge closed; the
    right filler shows the period that starts: background
    [startPeriodColor || color], border colour
    [startPeriodBorderColor || borderColor], only its left edge closed.
    Widths and radii are the marking's own, absent when the marking has
    none. *)
Theorem legacy_overlap_layout (style : Sheet.StyleSheet)
    (lm : Legacy.MarkingProps) :
  JS.truthyBool (Marking.isMultiPeriod (Legacy.props lm)) = true ->
  JS.truthyBool (Marking.startingDay (Legacy.props lm)) = true ->
  JS.truthyBool (Marking.endingDay (Legacy.props lm)) = true ->
  Legacy.leftFillerStyle (Legacy.fillerStyles style (Some lm))
  = Legacy.filler
      (JS.orStr (Legacy.endPeriodColor lm) (Marking.color (Legacy.props lm)))
      (JS.orStr (Legacy.endPeriodBorderColor lm)
         (Marking.borderColor (Legacy.props lm)))
      (Marking.borderWith (Legacy.props lm))
      (Marking.borderWith (Legacy.props lm))
      None
      (Marking.borderWith (Legacy.props lm))
      None None
      (Marking.borderRadius (Legacy.props lm))
      (Marking.borderRadius (Legacy.props lm))
  /\ Legacy.rightFillerStyle (Legacy.fillerStyles style (Some lm))
     = mirrorStyle
         (Legacy.filler
            (JS.orStr (Legacy.startPeriodColor lm)
               (Marking.color (Legacy.props lm)))
            (JS.orStr (Legacy.startPeriodBorderColor lm)
               (Marking.borderColor (Legacy.props lm)))
            (Marking.borderWith (Legacy.props lm))
            (Marking.borderWith (Legacy.props lm))
            None
            (Marking.borderWith (Legacy.props lm))
            None None
            (Marking.borderRadius (Legacy.props lm))
            (Marking.borderRadius (Legacy.props lm)))
  /\ Legacy.fillerStyle (Legacy.fillerStyles style (Some lm)) = emptyView.
Proof.
  intros Hm Hs He.
  destruct (legacy_markingStyle_periods style lm) as (Hs' & He' & _ & _).
  unfold Legacy.fillerStyles.
  rewrite Hs', He'. cbn [option_map optField]. rewrite Hm, Hs, He.
  repeat split.
Qed.

Lemma legacy_overlap_layout_witness :
  backgroundColor
    (Legacy.leftFillerStyle (Legacy.fillerStyles plainSheet (Some overlapMarking)))
  = Some "#00FF00"
  /\ backgroundColor
       (Legacy.rightFillerStyle (Legacy.fillerStyles plainSheet (Some overlapMarking)))
     = Some "#FF0000"
  /\ borderRightWidth
       (Legacy.leftFillerStyle (Legacy.fillerStyles plainSheet (Some overlapMarking)))
     = None.
Proof.
  destruct (legacy_overlap_layout plainSheet overlapMarking
              eq_refl eq_refl eq_refl) as (Hl & Hr & _).
  rewrite Hl, Hr. repeat split.
Defined.

(** X15: the older variant substitutes no default.  Every edge width of its
    two fillers is absent or exactly [marking.borderWith], every corner
    radius absent or exactly [marking.borderRadius]: a marking without
    [borderWith] gets no border width at all, and no other value ever
    stands in for the marking's own. *)
Theorem legacy_no_defaults (style : Sheet.StyleSheet)
    (lm : Legacy.MarkingProps) :
  Forall (fun f => f = None \/ f = Marking.borderWith (Legacy.props lm))
    [borderTopWidth (Legacy.leftFillerStyle (Legacy.fillerStyles style (Some lm)));
     borderBottomWidth (Legacy.leftFillerStyle (Legacy.fillerStyles style (Some lm)));
     borderLeftWidth (Legacy.leftFillerStyle (Legacy.fillerStyles style (Some lm)));
     borderRightWidth (Legacy.leftFillerStyle (Legacy.fillerStyles style (Some lm)));
     borderTopWidth (Legacy.rightFillerStyle (Legacy.fillerStyles style (Some lm)));
     borderBottomWidth (Legacy.rightFillerStyle (Legacy.fillerStyles style (Some lm)));
     borderLeftWidth (Legacy.rightFillerStyle (Legacy.fillerStyles style (Some lm)));
     borderRightWidth (Legacy.rightFillerStyle (Legacy.fillerStyles style (Some lm)))]
  /\ Forall (fun f => f = None \/ f = Marking.borderRadius (Legacy.props lm))
       [borderTopLeftRadius (Legacy.leftFillerStyle (Legacy.fillerStyles style (Some lm)));
        borderBottomLeftRadius (Legacy.leftFillerStyle (Legacy.fillerStyles style (Some lm)));
        borderTopRightRadius (Legacy.leftFillerStyle (Legacy.fillerStyles style (Some lm)));
        borderBottomRightRadius (Legacy.leftFillerStyle (Legacy.fillerStyles style (Some lm)));
        borderTopLeftRadius (Legacy.rightFillerStyle (Legacy.fillerStyles style (Some lm)));
        borderBottomLeftRadius (Legacy.rightFillerStyle (Legacy.fillerStyles style (Some lm)));
        borderTopRightRadius (Legacy.rightFillerStyle (Legacy.fillerStyles style (Some lm)));
        borderBottomRightRadius (Legacy.rightFillerStyle (Legacy.fillerStyles style (Some lm)))].
Proof.
  unfold Legacy.fillerStyles. cbn [option_map optField].
  generalize (MarkingStyle.startingDay (Legacy.markingStyle style (Some lm)))
    (MarkingStyle.endingDay (Legacy.markingStyle style (Some lm)))
    (MarkingStyle.day (Legacy.markingStyle style (Some lm))).
  intros [s|] [e|] [d|];
    destruct (JS.truthyBool (Marking.isMultiPeriod (Legacy.props lm)));
    cbn [andb negb JS.truthyObj Legacy.leftFillerStyle
         Legacy.rightFillerStyle Legacy.fillerStyle];
    split;
    repeat match goal with
           | |- Forall _ [] => constructor
           | |- Forall _ (_ :: _) => constructor
           | |- _ \/ _ => first [left; reflexivity | right; reflexivity]
           end.
Qed.

(** X16: a single-day period in the older variant.  With [startingDay] and
    [endingDay] both set and [isMultiPeriod] not, no branch of
    [fillerStyles] applies: both fillers and the wrapper style stay empty,
    no border is drawn, while the container still gets the marking colour
    as background. *)
Theorem legacy_single_day_unstyled (style : Sheet.StyleSheet)
    (lm : Legacy.MarkingProps) (state : option DayState) :
  JS.truthyBool (Marking.isMultiPeriod (Legacy.props lm)) = false ->
  JS.truthyBool (Marking.startingDay (Legacy.props lm)) = true ->
  JS.truthyBool (Marking.endingDay (Legacy.props lm)) = true ->
  Legacy.fillerStyles style (Some lm)
  = Legacy.mkFillerStyles emptyView emptyView emptyView
  /\ Legacy.containerStyle style (Some lm) state
     = [Sheet.base style]
       ++ (if isToday (Some (Legacy.props lm)) state
           then [Sheet.today style] else [])
       ++ [Legacy.baseContainerStyle;
           backgroundOnly (Marking.color (Legacy.props lm));
           match Marking.customContainerStyle (Legacy.props lm) with
           | Some c => c
           | None => emptyView
           end].
Proof.
  intros Hm Hs He.
  destruct (legacy_markingStyle_periods style lm) as (Hs' & He' & Hd & Hc).
  split.
  - unfold Legacy.fillerStyles.
    rewrite Hs', He', Hd. cbn [option_map optField]. rewrite Hm, Hs, He.
    reflexivity.
  - unfold Legacy.containerStyle. rewrite Hs', He', Hc, Hs, He.
    cbn [option_map].
    destruct (isToday (Some (Legacy.props lm)) state); reflexivity.
Qed.

Lemma legacy_single_day_unstyled_witness :
  Legacy.fillerStyles plainSheet
    (Some (Legacy.mkMarkingProps singleDayMarking None None None None))
  = Legacy.mkFillerStyles emptyView emptyView emptyView.
Proof.
  exact (proj1 (legacy_single_day_unstyled plainSheet
                  (Legacy.mkMarkingProps singleDayMarking None None None None)
                  None eq_refl eq_refl eq_refl)).
Defined.

(** X17: the container of the older variant knows neither the multi-period
    mode nor the marking's radius.  Its base entry always has radius 17,
    and a starting or ending day pushes the marking colour as background
    even when [isMultiPeriod] is set, where the newer variant pushes
    ['transparent']. *)
Theorem legacy_container_ignores_multi_period (style : Sheet.StyleSheet)
    (lm : Legacy.MarkingProps) (state : option DayState) :
  JS.truthyBool (Marking.isMultiPeriod (Legacy.props lm)) = true ->
  JS.truthyBool (Marking.startingDay (Legacy.props lm))
  || JS.truthyBool (Marking.endingDay (Legacy.props lm)) = true ->
  exists custom : ViewStyle,
    Legacy.containerStyle style (Some lm) state
    = ([Sheet.base style]
       ++ (if isToday (Some (Legacy.props lm)) state
           then [Sheet.today style] else []))
      ++ [Legacy.baseContainerStyle;
          backgroundOnly (Marking.color (Legacy.props lm)); custom]
    /\ containerStyle style (Some (Legacy.props lm)) state
       = ([Sheet.base style]
          ++ (if isToday (Some (Legacy.props lm)) state
              then [Sheet.today style] else []))
         ++ [baseContainerStyle (Legacy.props lm);
             backgroundOnly (Some "transparent"); custom]
    /\ borderRadius Legacy.baseContainerStyle = Some 17%float.
Proof.
  intros Hm Hedge.
  destruct (legacy_markingStyle_periods style lm) as (Hs' & He' & _ & Hc).
  destruct (markingStyle_periods style (Legacy.props lm)) as (_ & _ & _ & Hc').
  exists (match Marking.customContainerStyle (Legacy.props lm) with
          | Some c => c
          | None => emptyView
          end).
  unfold Legacy.containerStyle, containerStyle, containerStyleOf.
  rewrite Hs', He', Hc, Hc', Hm. cbn [option_map].
  destruct (JS.truthyBool (Marking.startingDay (Legacy.props lm))),
    (JS.truthyBool (Marking.endingDay (Legacy.props lm)));
    try discriminate Hedge;
    destruct (isToday (Some (Legacy.props lm)) state); repeat split.
Qed.

Lemma legacy_container_ignores_multi_period_witness :
  exists custom : ViewStyle,
    Legacy.containerStyle plainSheet (Some overlapMarking) None
    = ([Sheet.base plainSheet]
       ++ (if isToday (Some (Legacy.props overlapMarking)) None
           then [Sheet.today plainSheet] else []))
      ++ [Legacy.baseContainerStyle;
          backgroundOnly (Marking.color (Legacy.props overlapMarking)); custom]
    /\ containerStyle plainSheet (Some (Legacy.props overlapMarking)) None
       = ([Sheet.base plainSheet]
          ++ (if isToday (Some (Legacy.props overlapMarking)) None
              then [Sheet.today plainSheet] else []))
         ++ [baseContainerStyle (Legacy.props overlapMarking);
             backgroundOnly (Some "transparent"); custom]
    /\ borderRadius Legacy.baseContainerStyle = Some 17%float.
Proof.
  apply (legacy_container_ignores_multi_period plainSheet overlapMarking None);
    reflexivity.
Defined.

(** ** Text colour of a selected day *)

(** X18: the marking-derived text colour ignores the day state.  For a
    marking with [selected] set, neither [disabled] nor [inactive] set on
    the marking itself, and no [textColor] or [customTextStyle], the text
    resolves to the theme's selected colour whatever the state: for a day
    whose state is ['disabled'] the theme's disabled text style is pushed
    first and the selected colour overrides it. *)
Theorem selected_colour_overrides_state (style : Sheet.StyleSheet)
    (m : Marking.MarkingProps) (state : option DayState) (c : ColorValue) :
  JS.truthyBool (Marking.selected m) = true ->
  JS.truthyBool (Marking.disabled m) = false ->
  JS.truthyBool (Marking.inactive m) = false ->
  JS.truthyStr (Marking.textColor m) = false ->
  Marking.customTextStyle m = None ->
  Text.color (Sheet.selectedText style) = Some c ->
  resolvedTextColor (textStyle style (Some m) state) = Some c
  /\ (isDisabled (Some m) state = true ->
      textStyle style (Some m) state
      = [Sheet.text style; Sheet.disabledText style; Text.colorOnly (Some c)]).
Proof.
  intros Hsel Hdis Hin Htc Hcustom Hc.
  assert (Hms : MarkingStyle.textStyle (markingStyle style (Some m))
                = Some (Text.colorOnly (Some c))).
  { unfold markingStyle; simpl.
    rewrite Hsel, Hdis, Hin, Htc, Hcustom, Hc. reflexivity. }
  unfold textStyle. rewrite Hms.
  split.
  - unfold resolvedTextColor. rewrite fold_left_app. reflexivity.
  - intros ->. reflexivity.
Qed.

Lemma selected_colour_overrides_state_witness :
  resolvedTextColor (textStyle plainSheet (Some selectedMarking) (Some StateDisabled))
  = Some "#ffffff"
  /\ (isDisabled (Some selectedMarking) (Some StateDisabled) = true ->
      textStyle plainSheet (Some selectedMarking) (Some StateDisabled)
      = [Sheet.text plainSheet; Sheet.disabledText plainSheet;
         Text.colorOnly (Some "#ffffff")]).
Proof.
  apply (selected_colour_overrides_state plainSheet selectedMarking
           (Some StateDisabled) "#ffffff"); reflexivity.
Defined.
